(** * Nest thermostat climate adapter

    A shallow embedding of [homeassistant/components/climate/nest.py]:
    the [NestThermostat] entity that adapts a python-nest device handle
    to the climate entity contract of the host, and the properties its
    specification states about it. *)

From Stdlib Require Import ZArith List String Ascii Bool Lia.
From stdpp Require Import base strings gmap.
Import ListNotations.

Local Open Scope string_scope.
Local Open Scope list_scope.

(** ** Python values *)

(** The dynamically typed values that flow through the module.  Numeric
    readings are carried as integers: the module itself only ever tests
    a number for zero / non-zero and copies it. *)
#[local] Unset Elimination Schemes.
Inductive pyval : Type :=
| PNone
| PBool (b : bool)
| PNum (n : Z)
| PStr (s : string)
| PTuple (items : list pyval).
#[local] Set Elimination Schemes.

(** The exceptions that can surface while the module runs.  [APIError]
    is [nest.nest.APIError]; [VendorFault] stands for any other exception
    class raised inside the vendor client. *)
Inductive exn : Type :=
| APIError (info : string)
| VendorFault (info : string)
| TypeError
| IndexError
| AttributeError.

Inductive result (A : Type) : Type :=
| Ok (a : A)
| Raise (e : exn).
Arguments Ok {A} a.
Arguments Raise {A} e.

(** Python truth value testing ([bool(v)]). *)
Definition truthy (v : pyval) : bool :=
  match v with
  | PNone => false
  | PBool b => b
  | PNum n => negb (n =? 0)%Z
  | PStr s => negb (String.eqb s "")
  | PTuple items => match items with [] => false | _ :: _ => true end
  end.

(** [v == s] for a string literal [s]: only a [str] can equal a [str]. *)
Definition py_eq_str (v : pyval) (s : string) : bool :=
  match v with
  | PStr t => String.eqb t s
  | _ => false
  end.

(** [v in [s1, ..., sn]] for a list of string literals. *)
Definition py_in_strs (v : pyval) (l : list string) : bool :=
  existsb (py_eq_str v) l.

(** [v is not None]. *)
Definition is_not_none (v : pyval) : bool :=
  match v with
  | PNone => false
  | _ => true
  end.

(** [v[i]] for a literal, non-negative index [i]. *)
Definition py_index (v : pyval) (i : nat) : result pyval :=
  match v with
  | PTuple items =>
      match nth_error items i with
      | Some x => Ok x
      | None => Raise IndexError
      end
  | PStr s =>
      match String.get i s with
      | Some c => Ok (PStr (String c EmptyString))
      | None => Raise IndexError
      end
  | _ => Raise TypeError
  end.

(** [str.lower] on text made of ASCII characters only: the letters A to Z
    go to a to z and every other character stays. *)
Definition ascii_lower (c : ascii) : ascii :=
  let n := nat_of_ascii c in
  if (65 <=? n)%nat && (n <=? 90)%nat then ascii_of_nat (n + 32) else c.

Fixpoint string_lower (s : string) : string :=
  match s with
  | EmptyString => EmptyString
  | String c rest => String (ascii_lower c) (string_lower rest)
  end.

(** The text holds none but ASCII characters (bytes below 128). *)
Fixpoint is_ascii_text (s : string) : bool :=
  match s with
  | EmptyString => true
  | String c rest => (nat_of_ascii c <? 128)%nat && is_ascii_text rest
  end.

(** What the module takes from the Python runtime: the lower-casing of
    text that is not ASCII, which follows the case tables of Unicode. *)
Class Runtime : Type := { unicode_lower : string -> string }.

(** [s.lower()]: on ASCII text the map above, on any other text the one
    of the runtime. *)
Definition str_lower {runtime : Runtime} (s : string) : string :=
  if is_ascii_text s then string_lower s else unicode_lower s.

(** [v.lower()]: an attribute of [str] only. *)
Definition py_lower {runtime : Runtime} (v : pyval) : result pyval :=
  match v with
  | PStr s => Ok (PStr (str_lower s))
  | _ => Raise AttributeError
  end.

(** [kwargs.get(key)]: the value, or [None] when the key is absent. *)
Definition kwargs_get (kwargs : gmap string pyval) (key : string) : pyval :=
  default PNone (kwargs !! key).

(** ** Constants *)

Definition NEST_MODE_HEAT_COOL : string := "heat-cool".

(** Modelled from the spec: the state names imported from
    [homeassistant.const] and [homeassistant.components.climate], which
    are not part of this module; the specification names them off, heat,
    cool, auto, eco, on and unknown. *)
Definition STATE_OFF : string := "off".
Definition STATE_HEAT : string := "heat".
Definition STATE_COOL : string := "cool".
Definition STATE_AUTO : string := "auto".
Definition STATE_ECO : string := "eco".
Definition STATE_ON : string := "on".
Definition STATE_UNKNOWN : string := "unknown".

(** ** The vendor handles *)

(** What the python-nest device handle lets this module read. *)
Module Dev.
Record t : Type := mk {
  can_heat : bool;
  can_cool : bool;
  has_fan : bool;
  where_ : pyval;
  name : pyval;
  humidity : pyval;
  temperature : pyval;
  mode : pyval;
  target : pyval;
  fan : pyval;
  eco_temperature : pyval;
  locked_temperature : pyval;
  min_temperature : pyval;
  max_temperature : pyval;
  is_locked : pyval;
  temperature_scale : pyval;
  serial : pyval
}.
End Dev.

(** The structure handle: the container of the away flag. *)
Record Structure : Type := mkStructure { away : pyval }.

(** The attribute setters of the vendor handles.  A setter is a remote
    call: it yields the handle as it reads afterwards and, when the call
    fails, the exception it raises. *)
Class Vendor : Type := {
  device_set_target : Dev.t -> pyval -> option exn * Dev.t;
  device_set_mode : Dev.t -> pyval -> option exn * Dev.t;
  device_set_fan : Dev.t -> pyval -> option exn * Dev.t;
  structure_set_away : Structure -> pyval -> option exn * Structure
}.

(** ** The adapter object *)

Record NestThermostat : Type := mkNestThermostat {
  _unit : pyval;
  _fan_list : list string;
  _support_flags : Z;
  _operation_list : list string;
  _has_fan : bool;
  _away : pyval;
  _location : pyval;
  _name : pyval;
  _humidity : pyval;
  _target_temperature : pyval;
  _temperature : pyval;
  _temperature_scale : pyval;
  _mode : pyval;
  _fan : pyval;
  _eco_temperature : pyval;
  _is_locked : pyval;
  _locked_temperature : pyval;
  _min_temperature : pyval;
  _max_temperature : pyval
}.

(** ** Observable effects *)

Inductive log_level : Type := DEBUG | ERROR.

Inductive log_arg : Type :=
| ArgVal (v : pyval)
| ArgExn (e : exn).

Record log_record : Type := mkLog {
  level : log_level;
  message : string;
  argument : log_arg
}.

(** An attribute assignment attempted on a vendor handle. *)
Inductive vendor_call : Type :=
| SetTarget (v : pyval)
| SetMode (v : pyval)
| SetFan (v : pyval)
| SetAway (v : pyval).

(** The adapter together with the two handles it refers to and the
    effects it has had: the records sent to [_LOGGER], the arguments of
    the [schedule_update_ha_state] requests made to the host, and the
    assignments attempted on the vendor handles, oldest first. *)
Record World : Type := mkWorld {
  self : NestThermostat;
  device : Dev.t;
  structure : Structure;
  log : list log_record;
  scheduled : list bool;
  vendor_calls : list vendor_call
}.

Definition with_self (s : NestThermostat) (w : World) : World :=
  mkWorld s (device w) (structure w) (log w) (scheduled w) (vendor_calls w).

(** ** Commands: state passing with exceptions *)

Definition M (A : Type) : Type := World -> result A * World.

Definition ret {A : Type} (a : A) : M A := fun w => (Ok a, w).

Definition bind {A B : Type} (m : M A) (k : A -> M B) : M B :=
  fun w =>
    match m w with
    | (Ok a, w') => k a w'
    | (Raise e, w') => (Raise e, w')
    end.

Declare Scope cmd_scope.
Delimit Scope cmd_scope with cmd.
Notation "x <- m ;; k" := (bind m (fun x => k))
  (at level 100, m at next level, right associativity) : cmd_scope.
Notation "m ;; k" := (bind m (fun _ => k))
  (at level 100, right associativity) : cmd_scope.

Definition lift {A : Type} (r : result A) : M A := fun w => (r, w).

Definition get_self : M NestThermostat := fun w => (Ok (self w), w).

(** [try: body  except nest.nest.APIError as api_error: handler]. *)
Definition try_except_APIError (body : M unit) (handler : exn -> M unit)
  : M unit :=
  fun w =>
    match body w with
    | (Raise (APIError info), w') => handler (APIError info) w'
    | other => other
    end.

Definition logger (lvl : log_level) (msg : string) (arg : log_arg) : M unit :=
  fun w =>
    (Ok tt,
     mkWorld (self w) (device w) (structure w)
       (log w ++ [mkLog lvl msg arg]) (scheduled w) (vendor_calls w)).

(** [self.schedule_update_ha_state(force_refresh)]: the request is handed
    to the host, which runs it later. *)
Definition schedule_update_ha_state (force_refresh : bool) : M unit :=
  fun w =>
    (Ok tt,
     mkWorld (self w) (device w) (structure w)
       (log w) (scheduled w ++ [force_refresh]) (vendor_calls w)).

Definition finish (r : option exn) : result unit :=
  match r with
  | None => Ok tt
  | Some e => Raise e
  end.

(** ** Concrete handles and vendors *)

(** A vendor whose handles store what is assigned to them, verbatim. *)
Definition store_target (d : Dev.t) (v : pyval) : Dev.t :=
  Dev.mk (Dev.can_heat d) (Dev.can_cool d) (Dev.has_fan d) (Dev.where_ d)
    (Dev.name d) (Dev.humidity d) (Dev.temperature d) (Dev.mode d) v
    (Dev.fan d) (Dev.eco_temperature d) (Dev.locked_temperature d)
    (Dev.min_temperature d) (Dev.max_temperature d) (Dev.is_locked d)
    (Dev.temperature_scale d) (Dev.serial d).

Definition store_mode (d : Dev.t) (v : pyval) : Dev.t :=
  Dev.mk (Dev.can_heat d) (Dev.can_cool d) (Dev.has_fan d) (Dev.where_ d)
    (Dev.name d) (Dev.humidity d) (Dev.temperature d) v (Dev.target d)
    (Dev.fan d) (Dev.eco_temperature d) (Dev.locked_temperature d)
    (Dev.min_temperature d) (Dev.max_temperature d) (Dev.is_locked d)
    (Dev.temperature_scale d) (Dev.serial d).

Definition store_fan (d : Dev.t) (v : pyval) : Dev.t :=
  Dev.mk (Dev.can_heat d) (Dev.can_cool d) (Dev.has_fan d) (Dev.where_ d)
    (Dev.name d) (Dev.humidity d) (Dev.temperature d) (Dev.mode d)
    (Dev.target d) v (Dev.eco_temperature d) (Dev.locked_temperature d)
    (Dev.min_temperature d) (Dev.max_temperature d) (Dev.is_locked d)
    (Dev.temperature_scale d) (Dev.serial d).

Definition verbatim_vendor : Vendor :=
  {| device_set_target := fun d v => (None, store_target d v);
     device_set_mode := fun d v => (None, store_mode d v);
     device_set_fan := fun d v => (None, store_fan d v);
     structure_set_away := fun _ v => (None, mkStructure v) |}.

(** A runtime for runs on ASCII text; text of any other kind it returns
    as it is. *)
Definition plain_runtime : Runtime := {| unicode_lower := fun s => s |}.

(** A vendor whose service refuses every change of the target. *)
Definition refusing_vendor : Vendor :=
  {| device_set_target := fun d _ => (Some (APIError "blocked"), d);
     device_set_mode := fun d v => (None, store_mode d v);
     device_set_fan := fun d v => (None, store_fan d v);
     structure_set_away := fun _ v => (None, mkStructure v) |}.

(** A vendor whose service is unreachable when the mode is assigned. *)
Definition unreachable_vendor : Vendor :=
  {| device_set_target := fun d v => (None, store_target d v);
     device_set_mode := fun d _ => (Some (APIError "unreachable"), d);
     device_set_fan := fun d v => (None, store_fan d v);
     structure_set_away := fun _ v => (None, mkStructure v) |}.

(** A vendor whose structure reads away after [True] is assigned to its
    away field and home after any other value, storing the rest. *)
Definition translating_vendor : Vendor :=
  {| device_set_target := fun d v => (None, store_target d v);
     device_set_mode := fun d v => (None, store_mode d v);
     device_set_fan := fun d v => (None, store_fan d v);
     structure_set_away := fun _ v =>
       (None,
        mkStructure
          (match v with PBool true => PStr "away" | _ => PStr "home" end)) |}.

(** A vendor whose connection drops while the target is assigned: the
    exception is not the API fault of the vendor client. *)
Definition dropping_vendor : Vendor :=
  {| device_set_target := fun d _ => (Some (VendorFault "connection"), d);
     device_set_mode := fun d v => (None, store_mode d v);
     device_set_fan := fun d v => (None, store_fan d v);
     structure_set_away := fun _ v => (None, mkStructure v) |}.

(** A heating and cooling thermostat with a fan, heating to 20. *)
Definition hall_device : Dev.t :=
  {| Dev.can_heat := true; Dev.can_cool := true; Dev.has_fan := true;
     Dev.where_ := PStr "Hallway"; Dev.name := PStr "Hallway";
     Dev.humidity := PNum 40; Dev.temperature := PNum 19;
     Dev.mode := PStr "heat"; Dev.target := PNum 20; Dev.fan := PBool false;
     Dev.eco_temperature := PTuple [PNum 16; PNum 22];
     Dev.locked_temperature := PTuple [PNum 18; PNum 24];
     Dev.min_temperature := PNum 9; Dev.max_temperature := PNum 32;
     Dev.is_locked := PBool false; Dev.temperature_scale := PStr "C";
     Dev.serial := PStr "01AA02AB" |}.

(** An adapter cache as a refresh leaves it, given mode, target and away
    flag, with eco range (16, 22). *)
Definition cached (mode target away_flag : pyval) : NestThermostat :=
  {| _unit := PStr "C";
     _fan_list := ["on"; "auto"];
     _support_flags := 0;
     _operation_list := ["off"; "eco"];
     _has_fan := true;
     _away := away_flag;
     _location := PStr "Hallway";
     _name := PStr "Hallway";
     _humidity := PNum 40;
     _target_temperature := target;
     _temperature := PNum 19;
     _temperature_scale := PStr "C";
     _mode := mode;
     _fan := PBool false;
     _eco_temperature := PTuple [PNum 16; PNum 22];
     _is_locked := PBool false;
     _locked_temperature := PTuple [PNum 18; PNum 24];
     _min_temperature := PNum 9;
     _max_temperature := PNum 32 |}.

Definition hall_world (mode target away_flag : pyval) : World :=
  {| self := cached mode target away_flag;
     device := hall_device;
     structure := mkStructure (PStr "home");
     log := [];
     scheduled := [];
     vendor_calls := [] |}.

(** A heating-only thermostat without a fan. *)
Definition attic_device : Dev.t :=
  {| Dev.can_heat := true; Dev.can_cool := false; Dev.has_fan := false;
     Dev.where_ := PStr "Attic"; Dev.name := PStr "Attic";
     Dev.humidity := PNum 35; Dev.temperature := PNum 17;
     Dev.mode := PStr "heat"; Dev.target := PNum 18; Dev.fan := PBool false;
     Dev.eco_temperature := PTuple [PNum 12; PNum 28];
     Dev.locked_temperature := PTuple [PNum 18; PNum 24];
     Dev.min_temperature := PNum 9; Dev.max_temperature := PNum 32;
     Dev.is_locked := PBool false; Dev.temperature_scale := PStr "F";
     Dev.serial := PStr "01AA02AC" |}.

(** The hallway thermostat in the combined mode, holding 18 to 24. *)
Definition dual_device : Dev.t :=
  store_target (store_mode hall_device (PStr "heat-cool"))
    (PTuple [PNum 18; PNum 24]).

Definition dual_world : World :=
  {| self := cached (PStr "heat-cool") (PTuple [PNum 18; PNum 24]) (PBool false);
     device := dual_device;
     structure := mkStructure (PStr "home");
     log := [];
     scheduled := [];
     vendor_calls := [] |}.

(** A cache in which the eco range is missing. *)
Definition cached_without_eco (mode target away_flag : pyval)
  : NestThermostat :=
  {| _unit := PStr "C";
     _fan_list := ["on"; "auto"];
     _support_flags := 0;
     _operation_list := ["off"; "eco"];
     _has_fan := false;
     _away := away_flag;
     _location := PNone;
     _name := PNone;
     _humidity := PNone;
     _target_temperature := target;
     _temperature := PNone;
     _temperature_scale := PNone;
     _mode := mode;
     _fan := PNone;
     _eco_temperature := PNone;
     _is_locked := PNone;
     _locked_temperature := PNone;
     _min_temperature := PNone;
     _max_temperature := PNone |}.

(** ** The module *)

Section Nest.

(** The feature bits of [homeassistant.components.climate], the unit
    names of [homeassistant.const] and the keyword names of the
    [set_temperature] service are imported by this module and defined
    elsewhere; they are parameters here. *)
Variables SUPPORT_TARGET_TEMPERATURE SUPPORT_TARGET_TEMPERATURE_HIGH
  SUPPORT_TARGET_TEMPERATURE_LOW SUPPORT_OPERATION_MODE SUPPORT_AWAY_MODE
  SUPPORT_FAN_MODE : Z.
Variables TEMP_CELSIUS TEMP_FAHRENHEIT : pyval.
Variables ATTR_TARGET_TEMP_HIGH ATTR_TARGET_TEMP_LOW ATTR_TEMPERATURE : string.

Context {runtime : Runtime}.

Context {vendor : Vendor}.

(** [NestThermostat.__init__(structure, device, temp_unit)]; the two
    handles stay in the [World], the constructor reads the capability
    attributes of the device. *)
Definition init (device : Dev.t) (temp_unit : pyval) : NestThermostat :=
  let fan_list := [STATE_ON; STATE_AUTO] in
  let support_flags :=
    Z.lor (Z.lor SUPPORT_TARGET_TEMPERATURE SUPPORT_OPERATION_MODE)
          SUPPORT_AWAY_MODE in
  let operation_list := [STATE_OFF] in
  let operation_list :=
    if Dev.can_heat device then operation_list ++ [STATE_HEAT]
    else operation_list in
  let operation_list :=
    if Dev.can_cool device then operation_list ++ [STATE_COOL]
    else operation_list in
  let '(operation_list, support_flags) :=
    if Dev.can_heat device && Dev.can_cool device then
      (operation_list ++ [STATE_AUTO],
       Z.lor (Z.lor support_flags SUPPORT_TARGET_TEMPERATURE_HIGH)
             SUPPORT_TARGET_TEMPERATURE_LOW)
    else (operation_list, support_flags) in
  let operation_list := operation_list ++ [STATE_ECO] in
  let has_fan := Dev.has_fan device in
  let support_flags :=
    if has_fan then Z.lor support_flags SUPPORT_FAN_MODE
    else support_flags in
  {| _unit := temp_unit;
     _fan_list := fan_list;
     _support_flags := support_flags;
     _operation_list := operation_list;
     _has_fan := has_fan;
     _away := PNone;
     _location := PNone;
     _name := PNone;
     _humidity := PNone;
     _target_temperature := PNone;
     _temperature := PNone;
     _temperature_scale := PNone;
     _mode := PNone;
     _fan := PNone;
     _eco_temperature := PNone;
     _is_locked := PNone;
     _locked_temperature := PNone;
     _min_temperature := PNone;
     _max_temperature := PNone |}.

(** *** Read accessors *)

Definition supported_features (s : NestThermostat) : Z := _support_flags s.

Definition operation_list (s : NestThermostat) : list string :=
  _operation_list s.

Definition is_away_mode_on (s : NestThermostat) : pyval := _away s.

Definition current_operation (s : NestThermostat) : pyval :=
  if py_in_strs (_mode s) [STATE_HEAT; STATE_COOL; STATE_OFF; STATE_ECO]
  then _mode s
  else if py_eq_str (_mode s) NEST_MODE_HEAT_COOL then PStr STATE_AUTO
  else PStr STATE_UNKNOWN.

Definition target_temperature (s : NestThermostat) : pyval :=
  if negb (py_eq_str (_mode s) NEST_MODE_HEAT_COOL)
     && negb (py_eq_str (_mode s) STATE_ECO)
     && negb (truthy (is_away_mode_on s))
  then _target_temperature s
  else PNone.

(** The condition of the first [if] of the two range accessors:
    [(away or mode == eco) and eco_temperature[i]], whose second operand
    is evaluated only when the first is true. *)
Definition eco_bound_applies (s : NestThermostat) (i : nat) : result bool :=
  if truthy (is_away_mode_on s) || py_eq_str (_mode s) STATE_ECO then
    match py_index (_eco_temperature s) i with
    | Ok b => Ok (truthy b)
    | Raise e => Raise e
    end
  else Ok false.

Definition target_temperature_low (s : NestThermostat) : result pyval :=
  match eco_bound_applies s 0 with
  | Raise e => Raise e
  | Ok true => py_index (_eco_temperature s) 0
  | Ok false =>
      if py_eq_str (_mode s) NEST_MODE_HEAT_COOL
      then py_index (_target_temperature s) 0
      else Ok PNone
  end.

Definition target_temperature_high (s : NestThermostat) : result pyval :=
  match eco_bound_applies s 1 with
  | Raise e => Raise e
  | Ok true => py_index (_eco_temperature s) 1
  | Ok false =>
      if py_eq_str (_mode s) NEST_MODE_HEAT_COOL
      then py_index (_target_temperature s) 1
      else Ok PNone
  end.

Definition current_fan_mode (s : NestThermostat) : pyval :=
  if _has_fan s then
    if truthy (_fan s) then PStr STATE_ON else PStr STATE_AUTO
  else PNone.

Definition fan_list (s : NestThermostat) : option (list string) :=
  if _has_fan s then Some (_fan_list s) else None.

Definition should_poll (s : NestThermostat) : bool := false.

(** [unique_id] reads the serial of the device handle, not the cache. *)
Definition unique_id (w : World) : pyval := Dev.serial (device w).

Definition name (s : NestThermostat) : pyval := _name s.

Definition temperature_unit (s : NestThermostat) : pyval :=
  _temperature_scale s.

Definition current_temperature (s : NestThermostat) : pyval :=
  _temperature s.

Definition min_temp (s : NestThermostat) : pyval := _min_temperature s.

Definition max_temp (s : NestThermostat) : pyval := _max_temperature s.

(** *** Assignments to the vendor handles *)

Definition assign_device
    (setter : Dev.t -> pyval -> option exn * Dev.t)
    (call : pyval -> vendor_call) (v : pyval) : M unit :=
  fun w =>
    let '(r, d) := setter (device w) v in
    (finish r,
     mkWorld (self w) d (structure w) (log w) (scheduled w)
       (vendor_calls w ++ [call v])).

Definition assign_away (v : pyval) : M unit :=
  fun w =>
    let '(r, st) := structure_set_away (structure w) v in
    (finish r,
     mkWorld (self w) (device w) st (log w) (scheduled w)
       (vendor_calls w ++ [SetAway v])).

(** *** Commands *)

Local Open Scope cmd_scope.

Definition set_temperature (kwargs : gmap string pyval) : M unit :=
  let target_temp_low := kwargs_get kwargs ATTR_TARGET_TEMP_LOW in
  let target_temp_high := kwargs_get kwargs ATTR_TARGET_TEMP_HIGH in
  s <- get_self ;;
  temp <-
    (if py_eq_str (_mode s) NEST_MODE_HEAT_COOL then
       if is_not_none target_temp_low && is_not_none target_temp_high then
         let temp := PTuple [target_temp_low; target_temp_high] in
         logger DEBUG "Nest set_temperature-output-value=%s" (ArgVal temp) ;;
         ret temp
       else ret PNone
     else
       let temp := kwargs_get kwargs ATTR_TEMPERATURE in
       logger DEBUG "Nest set_temperature-output-value=%s" (ArgVal temp) ;;
       ret temp) ;;
  try_except_APIError
    (if is_not_none temp then assign_device device_set_target SetTarget temp
     else ret tt)
    (fun api_error =>
       logger ERROR "An error occurred while setting temperature: %s"
         (ArgExn api_error) ;;
       schedule_update_ha_state true).

Definition set_operation_mode (operation_mode : pyval) : M unit :=
  device_mode <-
    (if py_in_strs operation_mode
          [STATE_HEAT; STATE_COOL; STATE_OFF; STATE_ECO]
     then ret operation_mode
     else if py_eq_str operation_mode STATE_AUTO
     then ret (PStr NEST_MODE_HEAT_COOL)
     else
       logger ERROR
         "An error occurred while setting device mode. Invalid operation mode: %s"
         (ArgVal operation_mode) ;;
       ret (PStr STATE_OFF)) ;;
  assign_device device_set_mode SetMode device_mode.

Definition turn_away_mode_on : M unit := assign_away (PBool true).

Definition turn_away_mode_off : M unit := assign_away (PBool false).

Definition set_fan_mode (fan_mode : pyval) : M unit :=
  s <- get_self ;;
  if _has_fan s then
    lowered <- lift (py_lower fan_mode) ;;
    assign_device device_set_fan SetFan lowered
  else ret tt.

(** [update]: every cache field is assigned from the handles; the fields
    set by the constructor alone are carried over.  This is the run in
    which every read of the handles returns; [update_reading] below is
    the body statement by statement, with reads that may raise. *)
Definition update : M unit :=
  fun w =>
    let s := self w in
    let d := device w in
    (Ok tt,
     with_self
       {| _unit := _unit s;
          _fan_list := _fan_list s;
          _support_flags := _support_flags s;
          _operation_list := _operation_list s;
          _has_fan := _has_fan s;
          _location := Dev.where_ d;
          _name := Dev.name d;
          _humidity := Dev.humidity d;
          _temperature := Dev.temperature d;
          _mode := Dev.mode d;
          _target_temperature := Dev.target d;
          _fan := Dev.fan d;
          _away := PBool (py_eq_str (away (structure w)) "away");
          _eco_temperature := Dev.eco_temperature d;
          _locked_temperature := Dev.locked_temperature d;
          _min_temperature := Dev.min_temperature d;
          _max_temperature := Dev.max_temperature d;
          _is_locked := Dev.is_locked d;
          _temperature_scale :=
            if py_eq_str (Dev.temperature_scale d) "C" then TEMP_CELSIUS
            else TEMP_FAHRENHEIT |}
       w).

(** *** The refresh, read by read *)

(** The attributes [update] reads off the two handles, one per statement
    of its body. *)
Inductive attribute : Type :=
| A_where | A_name | A_humidity | A_temperature | A_mode | A_target
| A_fan | A_away | A_eco_temperature | A_locked_temperature
| A_min_temperature | A_max_temperature | A_is_locked
| A_temperature_scale.

(** The order in which the body of [update] reads them. *)
Definition update_order : list attribute :=
  [A_where; A_name; A_humidity; A_temperature; A_mode; A_target; A_fan;
   A_away; A_eco_temperature; A_locked_temperature; A_min_temperature;
   A_max_temperature; A_is_locked; A_temperature_scale].

(** What a read of the attribute returns when it returns. *)
Definition read_attribute (a : attribute) (w : World) : pyval :=
  match a with
  | A_where => Dev.where_ (device w)
  | A_name => Dev.name (device w)
  | A_humidity => Dev.humidity (device w)
  | A_temperature => Dev.temperature (device w)
  | A_mode => Dev.mode (device w)
  | A_target => Dev.target (device w)
  | A_fan => Dev.fan (device w)
  | A_away => away (structure w)
  | A_eco_temperature => Dev.eco_temperature (device w)
  | A_locked_temperature => Dev.locked_temperature (device w)
  | A_min_temperature => Dev.min_temperature (device w)
  | A_max_temperature => Dev.max_temperature (device w)
  | A_is_locked => Dev.is_locked (device w)
  | A_temperature_scale => Dev.temperature_scale (device w)
  end.

(** What the statement stores for the value read: the value itself,
    but for the away flag and the scale. *)
Definition value_to_cache (a : attribute) (v : pyval) : pyval :=
  match a with
  | A_away => PBool (py_eq_str v "away")
  | A_temperature_scale =>
      if py_eq_str v "C" then TEMP_CELSIUS else TEMP_FAHRENHEIT
  | _ => v
  end.

(** The cache field the statement assigns. *)
Definition cache_field (a : attribute) (s : NestThermostat) : pyval :=
  match a with
  | A_where => _location s
  | A_name => _name s
  | A_humidity => _humidity s
  | A_temperature => _temperature s
  | A_mode => _mode s
  | A_target => _target_temperature s
  | A_fan => _fan s
  | A_away => _away s
  | A_eco_temperature => _eco_temperature s
  | A_locked_temperature => _locked_temperature s
  | A_min_temperature => _min_temperature s
  | A_max_temperature => _max_temperature s
  | A_is_locked => _is_locked s
  | A_temperature_scale => _temperature_scale s
  end.

Definition set_cache_field (a : attribute) (v : pyval) (s : NestThermostat)
  : NestThermostat :=
  {| _unit := _unit s;
     _fan_list := _fan_list s;
     _support_flags := _support_flags s;
     _operation_list := _operation_list s;
     _has_fan := _has_fan s;
     _away := match a with A_away => v | _ => _away s end;
     _location := match a with A_where => v | _ => _location s end;
     _name := match a with A_name => v | _ => _name s end;
     _humidity := match a with A_humidity => v | _ => _humidity s end;
     _target_temperature :=
       match a with A_target => v | _ => _target_temperature s end;
     _temperature :=
       match a with A_temperature => v | _ => _temperature s end;
     _temperature_scale :=
       match a with A_temperature_scale => v | _ => _temperature_scale s end;
     _mode := match a with A_mode => v | _ => _mode s end;
     _fan := match a with A_fan => v | _ => _fan s end;
     _eco_temperature :=
       match a with A_eco_temperature => v | _ => _eco_temperature s end;
     _is_locked := match a with A_is_locked => v | _ => _is_locked s end;
     _locked_temperature :=
       match a with
       | A_locked_temperature => v
       | _ => _locked_temperature s
       end;
     _min_temperature :=
       match a with A_min_temperature => v | _ => _min_temperature s end;
     _max_temperature :=
       match a with A_max_temperature => v | _ => _max_temperature s end |}.

(** One statement of [update] whose read returns. *)
Definition store_attribute (a : attribute) (w : World) : World :=
  with_self
    (set_cache_field a (value_to_cache a (read_attribute a w)) (self w)) w.

(** The statements [steps] run in order; [faults] tells which reads
    raise, and what.  A read that raises ends the run there: the
    exception is not caught, and the statements before it have run. *)
Fixpoint refresh_from (faults : attribute -> option exn)
    (steps : list attribute) (w : World) : result unit * World :=
  match steps with
  | [] => (Ok tt, w)
  | a :: rest =>
      match faults a with
      | Some e => (Raise e, w)
      | None => refresh_from faults rest (store_attribute a w)
      end
  end.

(** [update] when reads of the handles may raise; [update] above is the
    run in which every read returns. *)
Definition update_reading (faults : attribute -> option exn) : M unit :=
  refresh_from faults update_order.

(** *** The host driving the entity *)

(** The calls the host makes on an entity after construction. *)
Inductive command : Type :=
| Update
| SetTemperature (kwargs : gmap string pyval)
| SetOperationMode (operation_mode : pyval)
| SetFanMode (fan_mode : pyval)
| TurnAwayModeOn
| TurnAwayModeOff.

Definition perform (c : command) : M unit :=
  match c with
  | Update => update
  | SetTemperature kwargs => set_temperature kwargs
  | SetOperationMode operation_mode => set_operation_mode operation_mode
  | SetFanMode fan_mode => set_fan_mode fan_mode
  | TurnAwayModeOn => turn_away_mode_on
  | TurnAwayModeOff => turn_away_mode_off
  end.

(** A run of calls; an exception ends the call that raised it and leaves
    the objects as they were at that point. *)
Fixpoint perform_all (cs : list command) (w : World) : World :=
  match cs with
  | [] => w
  | c :: rest => perform_all rest (snd (perform c w))
  end.

(** *** Vocabulary of the properties *)

(** The host tests a feature with [supported_features & FLAG]. *)
Definition has_feature (flags flag : Z) : bool :=
  negb (Z.land flags flag =? 0)%Z.

(** The feature constants are non-zero masks without a common bit. *)
Definition independent_masks (masks : list Z) : Prop :=
  (forall a, In a masks -> a <> 0%Z) /\
  (forall i j a b, i <> j ->
     nth_error masks i = Some a -> nth_error masks j = Some b ->
     Z.land a b = 0%Z).

Definition feature_masks : list Z :=
  [SUPPORT_TARGET_TEMPERATURE; SUPPORT_TARGET_TEMPERATURE_HIGH;
   SUPPORT_TARGET_TEMPERATURE_LOW; SUPPORT_OPERATION_MODE;
   SUPPORT_AWAY_MODE; SUPPORT_FAN_MODE].

(** The fields that only the constructor assigns. *)
Definition construction_fields (s : NestThermostat)
  : Z * list string * bool * list string :=
  (_support_flags s, _operation_list s, _has_fan s, _fan_list s).

(** Away-mode is on, or the cached mode is eco. *)
Definition eco_governs (s : NestThermostat) : Prop :=
  truthy (is_away_mode_on s) = true \/ _mode s = PStr STATE_ECO.

(** The first rule of the range accessors does not apply to bound [i]:
    eco does not govern, or the eco bound is there and falsy. *)
Definition eco_rule_passes (s : NestThermostat) (i : nat) : Prop :=
  ~ eco_governs s \/
  (exists b, py_index (_eco_temperature s) i = Ok b /\ truthy b = false).

(** A value that can be read as a low, high pair. *)
Definition is_pair (v : pyval) : Prop := exists lo hi, v = PTuple [lo; hi].

(** A device as python-nest presents it: the eco range is a pair, and so
    is the target while the mode is the combined one. *)
Definition ranges_are_pairs (d : Dev.t) : Prop :=
  is_pair (Dev.eco_temperature d) /\
  (Dev.mode d = PStr NEST_MODE_HEAT_COOL -> is_pair (Dev.target d)).

(** The kind of assignment a command may make on the vendor handles. *)
Definition call_of (c : command) (call : vendor_call) : Prop :=
  match c, call with
  | SetTemperature _, SetTarget _ => True
  | SetOperationMode _, SetMode _ => True
  | SetFanMode _, SetFan _ => True
  | TurnAwayModeOn, SetAway (PBool true) => True
  | TurnAwayModeOff, SetAway (PBool false) => True
  | _, _ => False
  end.

(** The upper-case letters of ASCII. *)
Definition is_ascii_upper (c : ascii) : bool :=
  (65 <=? nat_of_ascii c)%nat && (nat_of_ascii c <=? 90)%nat.

Fixpoint string_forallb (p : ascii -> bool) (s : string) : bool :=
  match s with
  | EmptyString => true
  | String c rest => p c && string_forallb p rest
  end.

(** The number of [set_temperature] calls in a run. *)
Fixpoint count_set_temperature (cs : list command) : nat :=
  match cs with
  | [] => 0
  | SetTemperature _ :: rest => S (count_set_temperature rest)
  | _ :: rest => count_set_temperature rest
  end.

(** ** Properties *)

(** *** Comparisons with string literals *)

Lemma py_eq_str_true (v : pyval) (s : string) :
  py_eq_str v s = true <-> v = PStr s.
Proof.
  destruct v; simpl; split; intros H; try discriminate.
  - apply String.eqb_eq in H. now subst.
  - injection H as ->. apply String.eqb_refl.
Qed.

Lemma py_eq_str_false (v : pyval) (s : string) :
  py_eq_str v s = false <-> v <> PStr s.
Proof.
  rewrite <- py_eq_str_true. destruct (py_eq_str v s); split; congruence.
Qed.

Lemma py_in_strs_true (v : pyval) (l : list string) :
  py_in_strs v l = true <-> exists m, In m l /\ v = PStr m.
Proof.
  unfold py_in_strs. rewrite existsb_exists.
  split; intros (m & Hin & H); exists m; split; auto;
    now apply py_eq_str_true.
Qed.

Lemma py_in_strs_false (v : pyval) (l : list string) :
  py_in_strs v l = false <-> forall m, In m l -> v <> PStr m.
Proof.
  split.
  - intros H m Hin Hv.
    assert (py_in_strs v l = true) by (apply py_in_strs_true; eauto).
    congruence.
  - intros H. destruct (py_in_strs v l) eqn:E; [|reflexivity].
    apply py_in_strs_true in E as (m & Hin & Hv). now apply H in Hin.
Qed.

(** *** Construction *)

Lemma init_mode (d : Dev.t) (u : pyval) : _mode (init d u) = PNone.
Proof. unfold init. destruct (Dev.can_heat d), (Dev.can_cool d); reflexivity. Qed.

(** *** Read accessors *)

(** C6: [current_operation] is the cached mode itself when that is heat,
    cool, off or eco, it is auto when the cached mode is the combined
    heat-cool token, and it is unknown for every other cached value, the
    [None] left by the constructor included. *)
Theorem current_operation_table (s : NestThermostat) :
  (forall m, In m ["heat"; "cool"; "off"; "eco"] ->
     _mode s = PStr m -> current_operation s = PStr m) /\
  (_mode s = PStr "heat-cool" -> current_operation s = PStr "auto") /\
  ((forall m, In m ["heat"; "cool"; "off"; "eco"; "heat-cool"] ->
      _mode s <> PStr m) ->
   current_operation s = PStr "unknown") /\
  (_mode s = PNone -> current_operation s = PStr "unknown") /\
  (forall d u, current_operation (init d u) = PStr "unknown").
Proof.
  unfold current_operation. repeat split.
  - intros m Hin Hm.
    assert (E : py_in_strs (_mode s)
                  [STATE_HEAT; STATE_COOL; STATE_OFF; STATE_ECO] = true)
      by (apply py_in_strs_true; exists m; auto).
    now rewrite E.
  - intros Hm. rewrite Hm. reflexivity.
  - intros Hother.
    assert (E : py_in_strs (_mode s)
                  [STATE_HEAT; STATE_COOL; STATE_OFF; STATE_ECO] = false).
    { apply py_in_strs_false. intros m Hin. apply Hother.
      simpl in *. intuition. }
    rewrite E.
    assert (E' : py_eq_str (_mode s) NEST_MODE_HEAT_COOL = false).
    { apply py_eq_str_false. apply Hother. simpl. intuition. }
    now rewrite E'.
  - intros Hm. rewrite Hm. reflexivity.
  - intros d u. now rewrite init_mode.
Qed.

(** C8: [current_fan_mode] is on when the device has a fan and the cached
    fan field is truthy, auto when it has a fan and the field is falsy,
    and [None] when the device has no fan. *)
Theorem current_fan_mode_table (s : NestThermostat) :
  (_has_fan s = true -> truthy (_fan s) = true ->
     current_fan_mode s = PStr "on") /\
  (_has_fan s = true -> truthy (_fan s) = false ->
     current_fan_mode s = PStr "auto") /\
  (_has_fan s = false -> current_fan_mode s = PNone).
Proof.
  unfold current_fan_mode.
  repeat split; intros; repeat match goal with H : _ = _ |- _ => rewrite H end;
    reflexivity.
Qed.

Lemma eco_governs_test (s : NestThermostat) :
  truthy (is_away_mode_on s) || py_eq_str (_mode s) STATE_ECO = true
  <-> eco_governs s.
Proof.
  unfold eco_governs. rewrite orb_true_iff, py_eq_str_true. reflexivity.
Qed.

Lemma eco_bound_applies_governed (s : NestThermostat) (i : nat) (b : pyval) :
  eco_governs s -> py_index (_eco_temperature s) i = Ok b ->
  eco_bound_applies s i = Ok (truthy b).
Proof.
  intros Hg Hb. apply eco_governs_test in Hg.
  unfold eco_bound_applies. now rewrite Hg, Hb.
Qed.

Lemma eco_bound_applies_passes (s : NestThermostat) (i : nat) :
  eco_rule_passes s i -> eco_bound_applies s i = Ok false.
Proof.
  unfold eco_bound_applies. intros [Hn | (b & Hb & Hf)].
  - destruct (truthy (is_away_mode_on s) || py_eq_str (_mode s) STATE_ECO)
      eqn:E; [|reflexivity].
    apply eco_governs_test in E. contradiction.
  - rewrite Hb, Hf. now destruct (_ || _).
Qed.

(** C3: the two range accessors follow one precedence.  (1) When
    away-mode is on or the cached mode is eco, and the eco bound of the
    accessor (the first element for low, the second for high) is truthy,
    that bound is returned.  (2) Otherwise, when the cached mode is the
    combined heat-cool token, the matching element of the cached target
    pair is returned.  (3) Otherwise [None] is returned.  So with
    away-mode on and eco range (16, 22) the low accessor returns 16
    whatever the cached mode is. *)
Theorem target_temperature_range_precedence (s : NestThermostat) :
  (forall lo hi,
     eco_governs s -> _eco_temperature s = PTuple [lo; hi] ->
     (truthy lo = true -> target_temperature_low s = Ok lo) /\
     (truthy hi = true -> target_temperature_high s = Ok hi)) /\
  (forall lo hi,
     _mode s = PStr "heat-cool" -> _target_temperature s = PTuple [lo; hi] ->
     (eco_rule_passes s 0 -> target_temperature_low s = Ok lo) /\
     (eco_rule_passes s 1 -> target_temperature_high s = Ok hi)) /\
  (_mode s <> PStr "heat-cool" ->
     (eco_rule_passes s 0 -> target_temperature_low s = Ok PNone) /\
     (eco_rule_passes s 1 -> target_temperature_high s = Ok PNone)) /\
  (truthy (is_away_mode_on s) = true ->
   _eco_temperature s = PTuple [PNum 16; PNum 22] ->
   target_temperature_low s = Ok (PNum 16)).
Proof.
  unfold target_temperature_low, target_temperature_high.
  split; [|split; [|split]].
  - intros lo hi Hg He. split; intros Ht.
    + rewrite (eco_bound_applies_governed s 0 lo Hg), Ht, He; auto.
      now rewrite He.
    + rewrite (eco_bound_applies_governed s 1 hi Hg), Ht, He; auto.
      now rewrite He.
  - intros lo hi Hm Ht. split; intros Hp;
      rewrite (eco_bound_applies_passes _ _ Hp), Hm, Ht; reflexivity.
  - intros Hm. apply py_eq_str_false in Hm. split; intros Hp;
      rewrite (eco_bound_applies_passes _ _ Hp);
      unfold NEST_MODE_HEAT_COOL; now rewrite Hm.
  - intros Ha He.
    rewrite (eco_bound_applies_governed s 0 (PNum 16)).
    + now rewrite He.
    + now left.
    + now rewrite He.
Qed.

(** C4, as the module has it: [target_temperature] is the cached single
    setpoint exactly when the cached mode is neither the combined
    heat-cool token nor eco and away-mode is off, and [None] in every
    other case.  With the combined heat-cool mode, cached range (18, 24)
    and away-mode off, [target_temperature] is [None], the low accessor
    returns 18 and the high accessor 24. *)
Theorem target_temperature_single (s : NestThermostat) :
  (_mode s <> PStr "heat-cool" -> _mode s <> PStr "eco" ->
   truthy (is_away_mode_on s) = false ->
   target_temperature s = _target_temperature s) /\
  (_mode s = PStr "heat-cool" \/ _mode s = PStr "eco" \/
   truthy (is_away_mode_on s) = true ->
   target_temperature s = PNone) /\
  (_mode s = PStr "heat-cool" ->
   _target_temperature s = PTuple [PNum 18; PNum 24] ->
   truthy (is_away_mode_on s) = false ->
   target_temperature s = PNone /\
   target_temperature_low s = Ok (PNum 18) /\
   target_temperature_high s = Ok (PNum 24)).
Proof.
  unfold target_temperature. split; [|split].
  - intros Hh He Ha. apply py_eq_str_false in Hh, He.
    unfold NEST_MODE_HEAT_COOL, STATE_ECO. now rewrite Hh, He, Ha.
  - intros [Hm | [Hm | Ha]].
    + now rewrite Hm.
    + now rewrite Hm.
    + rewrite Ha. now rewrite !andb_false_r.
  - intros Hm Ht Ha. split; [now rewrite Hm|].
    assert (Hp : forall i, eco_rule_passes s i).
    { intros i. left. intros [H | H]; [congruence|].
      rewrite Hm in H. discriminate. }
    unfold target_temperature_low, target_temperature_high.
    rewrite !(eco_bound_applies_passes _ _ (Hp _)), Hm, Ht. now split.
Qed.

(** *** Construction *)

Lemma has_feature_lor (a b f : Z) :
  has_feature (Z.lor a b) f = has_feature a f || has_feature b f.
Proof.
  unfold has_feature. rewrite Z.land_lor_distr_l, <- negb_andb. f_equal.
  destruct (Z.land a f =? 0)%Z eqn:Ea, (Z.land b f =? 0)%Z eqn:Eb; simpl;
    rewrite ?Z.eqb_eq, ?Z.eqb_neq in *; rewrite Z.lor_eq_0_iff; tauto.
Qed.

Lemma independent_masks_feature (masks : list Z) (i j : nat) (a b : Z) :
  independent_masks masks ->
  nth_error masks i = Some a -> nth_error masks j = Some b ->
  has_feature a b = Nat.eqb i j.
Proof.
  intros [Hnz Hdis] Ha Hb. unfold has_feature.
  destruct (Nat.eqb i j) eqn:E.
  - apply Nat.eqb_eq in E. subst j. rewrite Ha in Hb. injection Hb as <-.
    rewrite Z.land_diag. apply nth_error_In in Ha. apply Hnz in Ha.
    apply Z.eqb_neq in Ha. now rewrite Ha.
  - apply Nat.eqb_neq in E. now rewrite (Hdis i j a b E Ha Hb).
Qed.

Ltac feature_at H i j :=
  rewrite (independent_masks_feature feature_masks i j _ _ H eq_refl eq_refl).

Ltac features H :=
  repeat rewrite has_feature_lor;
  repeat first
    [ feature_at H 0%nat 1%nat | feature_at H 0%nat 2%nat
    | feature_at H 0%nat 5%nat | feature_at H 1%nat 1%nat
    | feature_at H 1%nat 2%nat | feature_at H 1%nat 5%nat
    | feature_at H 2%nat 1%nat | feature_at H 2%nat 2%nat
    | feature_at H 2%nat 5%nat | feature_at H 3%nat 1%nat
    | feature_at H 3%nat 2%nat | feature_at H 3%nat 5%nat
    | feature_at H 4%nat 1%nat | feature_at H 4%nat 2%nat
    | feature_at H 4%nat 5%nat | feature_at H 5%nat 1%nat
    | feature_at H 5%nat 2%nat | feature_at H 5%nat 5%nat ].

(** C5: the constructor builds the operation list as off, then heat iff
    the device can heat, then cool iff it can cool, then auto iff it can
    do both, then eco; the two range features (low and high target) are
    among the supported features iff the device can both heat and cool,
    and the fan feature iff it has a fan.  A device that can neither heat
    nor cool gets [off; eco] and no range feature; a device that can do
    both gets [off; heat; cool; auto; eco] and both range features. *)
Theorem init_operation_list_and_features (d : Dev.t) (u : pyval) :
  independent_masks feature_masks ->
  let s := init d u in
  operation_list s =
    ["off"] ++ (if Dev.can_heat d then ["heat"] else [])
            ++ (if Dev.can_cool d then ["cool"] else [])
            ++ (if Dev.can_heat d && Dev.can_cool d then ["auto"] else [])
            ++ ["eco"] /\
  has_feature (supported_features s) SUPPORT_TARGET_TEMPERATURE_HIGH
    = Dev.can_heat d && Dev.can_cool d /\
  has_feature (supported_features s) SUPPORT_TARGET_TEMPERATURE_LOW
    = Dev.can_heat d && Dev.can_cool d /\
  has_feature (supported_features s) SUPPORT_FAN_MODE = Dev.has_fan d /\
  (Dev.can_heat d = false -> Dev.can_cool d = false ->
   operation_list s = ["off"; "eco"] /\
   has_feature (supported_features s) SUPPORT_TARGET_TEMPERATURE_HIGH = false /\
   has_feature (supported_features s) SUPPORT_TARGET_TEMPERATURE_LOW = false) /\
  (Dev.can_heat d = true -> Dev.can_cool d = true ->
   operation_list s = ["off"; "heat"; "cool"; "auto"; "eco"] /\
   has_feature (supported_features s) SUPPORT_TARGET_TEMPERATURE_HIGH = true /\
   has_feature (supported_features s) SUPPORT_TARGET_TEMPERATURE_LOW = true).
Proof.
  intros H s. subst s. unfold operation_list, supported_features, init.
  destruct (Dev.can_heat d), (Dev.can_cool d), (Dev.has_fan d); simpl;
    repeat split; intros; try discriminate; try reflexivity;
    features H; reflexivity.
Qed.

(** *** Commands *)

Lemma assign_device_run setter call (v : pyval) (w : World) :
  assign_device setter call v w =
    (finish (fst (setter (device w) v)),
     mkWorld (self w) (snd (setter (device w) v)) (structure w) (log w)
       (scheduled w) (vendor_calls w ++ [call v])).
Proof. unfold assign_device. now destruct (setter (device w) v). Qed.

Lemma assign_away_run (v : pyval) (w : World) :
  assign_away v w =
    (finish (fst (structure_set_away (structure w) v)),
     mkWorld (self w) (device w)
       (snd (structure_set_away (structure w) v)) (log w)
       (scheduled w) (vendor_calls w ++ [SetAway v])).
Proof. unfold assign_away. now destruct (structure_set_away (structure w) v). Qed.

(** Only [update] assigns to the adapter object. *)
Ltac split_if :=
  match goal with
  | |- context [if ?c then _ else _] => destruct c eqn:?
  end.

Lemma set_temperature_self kwargs (w : World) :
  self (snd (set_temperature kwargs w)) = self w.
Proof.
  unfold set_temperature, try_except_APIError, bind, get_self, ret,
    logger, schedule_update_ha_state.
  repeat (simpl; split_if); simpl; try reflexivity;
    rewrite assign_device_run; simpl;
    destruct (device_set_target _ _) as [[[]|] d']; reflexivity.
Qed.

Lemma set_operation_mode_self (m : pyval) (w : World) :
  self (snd (set_operation_mode m w)) = self w.
Proof.
  unfold set_operation_mode, bind, ret, logger.
  repeat (simpl; split_if); simpl; rewrite assign_device_run; reflexivity.
Qed.

Lemma set_fan_mode_self (f : pyval) (w : World) :
  self (snd (set_fan_mode f w)) = self w.
Proof.
  unfold set_fan_mode, bind, get_self, lift, ret.
  destruct (_has_fan (self w)); [|reflexivity].
  destruct (py_lower f); [|reflexivity].
  rewrite assign_device_run. reflexivity.
Qed.

Lemma assign_away_self (v : pyval) (w : World) :
  self (snd (assign_away v w)) = self w.
Proof. now rewrite assign_away_run. Qed.

Lemma perform_construction_fields (c : command) (w : World) :
  construction_fields (self (snd (perform c w))) =
  construction_fields (self w).
Proof.
  destruct c; simpl.
  - reflexivity.
  - now rewrite set_temperature_self.
  - now rewrite set_operation_mode_self.
  - now rewrite set_fan_mode_self.
  - unfold turn_away_mode_on. now rewrite assign_away_self.
  - unfold turn_away_mode_off. now rewrite assign_away_self.
Qed.

(** C7: the supported-feature word, the operation list, the has-fan flag
    and the fan-mode list are assigned by the constructor only: [update],
    [set_temperature], [set_operation_mode], [set_fan_mode] and the two
    away-mode commands each leave them as they were, and so does every
    run of such calls on a constructed adapter. *)
Theorem construction_fields_never_change :
  (forall c w,
     construction_fields (self (snd (perform c w))) =
     construction_fields (self w)) /\
  (forall cs w,
     construction_fields (self (perform_all cs w)) =
     construction_fields (self w)) /\
  (forall d u cs w,
     let s := self (perform_all cs (with_self (init d u) w)) in
     supported_features s = supported_features (init d u) /\
     operation_list s = operation_list (init d u) /\
     _has_fan s = Dev.has_fan d /\
     _fan_list s = ["on"; "auto"]).
Proof.
  assert (Hall : forall cs w,
            construction_fields (self (perform_all cs w)) =
            construction_fields (self w)).
  { induction cs as [|c cs IH]; intros w; simpl; [reflexivity|].
    rewrite IH. apply perform_construction_fields. }
  split; [exact perform_construction_fields|]. split; [exact Hall|].
  intros d u cs w s. subst s.
  specialize (Hall cs (with_self (init d u) w)).
  unfold construction_fields in Hall. simpl in Hall.
  injection Hall as Hflags Hops Hfan Hlist.
  unfold supported_features, operation_list.
  rewrite Hflags, Hops, Hfan, Hlist.
  unfold init. destruct (Dev.can_heat d), (Dev.can_cool d); auto.
Qed.

(** C9: [update] caches a true away flag exactly when the away field of
    the structure is the string away, whereas the two away commands
    assign the booleans [True] and [False] to that field: each makes
    that one assignment on the structure, ends as the assignment ends
    and leaves the structure as the vendor left it.  Over a structure
    that stores what is assigned to it verbatim, turning away-mode on and
    refreshing makes [is_away_mode_on] false, as does turning it off. *)
Theorem away_flag_round_trip (w : World) :
  (_away (self (snd (update w))) = PBool true <->
   away (structure w) = PStr "away") /\
  (_away (self (snd (update w))) = PBool false <->
   away (structure w) <> PStr "away") /\
  vendor_calls (snd (turn_away_mode_on w)) =
    vendor_calls w ++ [SetAway (PBool true)] /\
  vendor_calls (snd (turn_away_mode_off w)) =
    vendor_calls w ++ [SetAway (PBool false)] /\
  turn_away_mode_on w =
    (finish (fst (structure_set_away (structure w) (PBool true))),
     mkWorld (self w) (device w)
       (snd (structure_set_away (structure w) (PBool true)))
       (log w) (scheduled w) (vendor_calls w ++ [SetAway (PBool true)])) /\
  turn_away_mode_off w =
    (finish (fst (structure_set_away (structure w) (PBool false))),
     mkWorld (self w) (device w)
       (snd (structure_set_away (structure w) (PBool false)))
       (log w) (scheduled w) (vendor_calls w ++ [SetAway (PBool false)])) /\
  ((forall st v, structure_set_away st v = (None, mkStructure v)) ->
   fst (turn_away_mode_on w) = Ok tt /\
   away (structure (snd (turn_away_mode_on w))) = PBool true /\
   is_away_mode_on (self (snd (update (snd (turn_away_mode_on w))))) =
     PBool false /\
   fst (turn_away_mode_off w) = Ok tt /\
   away (structure (snd (turn_away_mode_off w))) = PBool false /\
   is_away_mode_on (self (snd (update (snd (turn_away_mode_off w))))) =
     PBool false).
Proof.
  unfold turn_away_mode_on, turn_away_mode_off. rewrite !assign_away_run.
  simpl. repeat split.
  - intros H. injection H as H. now apply py_eq_str_true.
  - intros H. apply py_eq_str_true in H. now rewrite H.
  - intros H. injection H as H. now apply py_eq_str_false.
  - intros H. apply py_eq_str_false in H. now rewrite H.
  - now rewrite H.
  - now rewrite H.
  - now rewrite H.
  - now rewrite H.
  - now rewrite H.
  - now rewrite H.
Qed.

(** C10: [set_temperature] assigns nothing to the device and raises
    nothing when the arguments it needs are absent, that is, in the
    combined heat-cool mode when the low or the high target is missing
    and in every other mode when the single target is missing: the
    device (its target field in particular) and the adapter object are
    left unchanged. *)
Theorem set_temperature_missing_arguments kwargs (w : World) :
  (_mode (self w) = PStr "heat-cool" /\
   (kwargs_get kwargs ATTR_TARGET_TEMP_LOW = PNone \/
    kwargs_get kwargs ATTR_TARGET_TEMP_HIGH = PNone)) \/
  (_mode (self w) <> PStr "heat-cool" /\
   kwargs_get kwargs ATTR_TEMPERATURE = PNone) ->
  let w' := snd (set_temperature kwargs w) in
  fst (set_temperature kwargs w) = Ok tt /\
  vendor_calls w' = vendor_calls w /\
  device w' = device w /\
  Dev.target (device w') = Dev.target (device w) /\
  self w' = self w /\
  structure w' = structure w /\
  scheduled w' = scheduled w.
Proof.
  intros H w'. subst w'.
  unfold set_temperature, try_except_APIError, bind, get_self, ret, logger.
  destruct H as [[Hm Habs] | [Hm Habs]].
  - rewrite Hm. simpl.
    assert (E : is_not_none (kwargs_get kwargs ATTR_TARGET_TEMP_LOW)
                && is_not_none (kwargs_get kwargs ATTR_TARGET_TEMP_HIGH)
                = false).
    { destruct Habs as [-> | ->]; simpl; auto using andb_false_r. }
    rewrite E. simpl. repeat split.
  - apply py_eq_str_false in Hm. unfold NEST_MODE_HEAT_COOL.
    rewrite Hm, Habs. simpl. repeat split.
Qed.

Lemma is_not_none_true (v : pyval) : is_not_none v = true <-> v <> PNone.
Proof. destruct v; simpl; split; congruence. Qed.

(** The trace after [set_temperature], whatever the vendor answers. *)
Lemma set_temperature_calls kwargs (w : World) :
  let low := kwargs_get kwargs ATTR_TARGET_TEMP_LOW in
  let high := kwargs_get kwargs ATTR_TARGET_TEMP_HIGH in
  let single := kwargs_get kwargs ATTR_TEMPERATURE in
  vendor_calls (snd (set_temperature kwargs w)) =
    vendor_calls w ++
    (if py_eq_str (_mode (self w)) NEST_MODE_HEAT_COOL then
       if is_not_none low && is_not_none high
       then [SetTarget (PTuple [low; high])] else []
     else if is_not_none single then [SetTarget single] else []).
Proof.
  unfold set_temperature, try_except_APIError, bind, get_self, ret,
    logger, schedule_update_ha_state.
  repeat (simpl; split_if); simpl; rewrite ?app_nil_r; try reflexivity;
    rewrite assign_device_run; simpl;
    match goal with
    | |- context [device_set_target (device w) ?temp] =>
        destruct (device_set_target (device w) temp) as [[[]|] d'']
    end; reflexivity.
Qed.

(** [set_temperature] assigns the target [v] exactly when, in the
    combined mode, both bounds are given and [v] is their pair, or, in
    any other mode, the single target is given and is [v]. *)
Lemma set_temperature_assigns kwargs (w : World) (v : pyval) :
  (exists rest,
     vendor_calls (snd (set_temperature kwargs w)) =
     vendor_calls w ++ SetTarget v :: rest) <->
  (_mode (self w) = PStr "heat-cool" /\
   kwargs_get kwargs ATTR_TARGET_TEMP_LOW <> PNone /\
   kwargs_get kwargs ATTR_TARGET_TEMP_HIGH <> PNone /\
   v = PTuple [kwargs_get kwargs ATTR_TARGET_TEMP_LOW;
               kwargs_get kwargs ATTR_TARGET_TEMP_HIGH]) \/
  (_mode (self w) <> PStr "heat-cool" /\
   kwargs_get kwargs ATTR_TEMPERATURE <> PNone /\
   v = kwargs_get kwargs ATTR_TEMPERATURE).
Proof.
  rewrite set_temperature_calls. cbv zeta.
  destruct (py_eq_str (_mode (self w)) NEST_MODE_HEAT_COOL) eqn:Em.
  - apply py_eq_str_true in Em.
    destruct (is_not_none (kwargs_get kwargs ATTR_TARGET_TEMP_LOW)) eqn:El;
      [destruct (is_not_none (kwargs_get kwargs ATTR_TARGET_TEMP_HIGH)) eqn:Eh|];
      simpl; split.
    + intros [rest H]. apply app_inv_head in H. injection H as <- _.
      left. rewrite <- !is_not_none_true. auto.
    + intros [(_ & _ & _ & ->) | (Hm & _)]; [now exists [] | now elim Hm].
    + intros [rest H]. apply app_inv_head in H. discriminate.
    + intros [(_ & _ & Hh & _) | (Hm & _)]; [|now elim Hm].
      apply is_not_none_true in Hh. congruence.
    + intros [rest H]. apply app_inv_head in H. discriminate.
    + intros [(_ & Hl & _) | (Hm & _)]; [|now elim Hm].
      apply is_not_none_true in Hl. congruence.
  - apply py_eq_str_false in Em.
    destruct (is_not_none (kwargs_get kwargs ATTR_TEMPERATURE)) eqn:Et;
      simpl; split.
    + intros [rest H]. apply app_inv_head in H. injection H as <- _.
      right. rewrite <- is_not_none_true. auto.
    + intros [(Hm & _) | (_ & _ & ->)]; [now elim Em | now exists []].
    + intros [rest H]. apply app_inv_head in H. discriminate.
    + intros [(Hm & _) | (_ & Ht & _)]; [now elim Em|].
      apply is_not_none_true in Ht. congruence.
Qed.

(** [update] caches the target the device reports at that moment. *)
Lemma update_target (w : World) :
  _target_temperature (self (snd (update w))) = Dev.target (device w).
Proof. reflexivity. Qed.

(** C1: when a call to [set_temperature] assigns a target and the vendor
    answers that assignment with its API fault, the call returns
    normally, having logged the error and asked the host for one forced
    refresh; the adapter object is as before the call, no second
    assignment is attempted, and the target the next refresh caches is
    the one the device reports, whatever the rejected value was. *)
Theorem set_temperature_api_fault
    kwargs (w : World) (v : pyval) (info : string) (d' : Dev.t) :
  (exists rest,
     vendor_calls (snd (set_temperature kwargs w)) =
     vendor_calls w ++ SetTarget v :: rest) ->
  device_set_target (device w) v = (Some (APIError info), d') ->
  let w' := snd (set_temperature kwargs w) in
  fst (set_temperature kwargs w) = Ok tt /\
  log w' =
    log w ++
    [mkLog DEBUG "Nest set_temperature-output-value=%s" (ArgVal v);
     mkLog ERROR "An error occurred while setting temperature: %s"
       (ArgExn (APIError info))] /\
  scheduled w' = scheduled w ++ [true] /\
  self w' = self w /\
  vendor_calls w' = vendor_calls w ++ [SetTarget v] /\
  device w' = d' /\
  structure w' = structure w /\
  _target_temperature (self (snd (update w'))) = Dev.target d'.
Proof.
  intros [rest Hcall] Hv w'. subst w'. rewrite update_target.
  revert Hcall.
  unfold set_temperature, try_except_APIError, bind, get_self, ret,
    logger, schedule_update_ha_state.
  repeat (simpl; split_if); simpl;
    try (intros Hcall; rewrite <- (app_nil_r (vendor_calls w)) in Hcall at 1;
         apply app_inv_head in Hcall; discriminate);
    rewrite assign_device_run; simpl;
    match goal with
    | |- context [device_set_target (device w) ?temp] =>
        destruct (device_set_target (device w) temp) as [[[]|] d''] eqn:E
    end; simpl;
    intros Hcall; apply app_inv_head in Hcall;
    injection Hcall as Hcall _; rewrite Hcall in E; rewrite Hv in E;
    try discriminate; injection E as <- <-; rewrite ?Hcall, <- ?app_assoc;
    repeat split.
Qed.

(** C2: for every string [m], [set_operation_mode] assigns to the mode
    field of the device exactly once: [m] itself when it is heat, cool,
    off or eco, the combined heat-cool token when it is auto, and off,
    after logging an error, for any other string.  The call raises
    nothing of its own: it ends as the assignment ends, so an
    unrecognised mode is never rejected with an exception. *)
Theorem set_operation_mode_token (m : string) (w : World) :
  exists (token : string) (errors : list log_record),
    let answer := device_set_mode (device w) (PStr token) in
    set_operation_mode (PStr m) w =
      (finish (fst answer),
       mkWorld (self w) (snd answer) (structure w) (log w ++ errors)
         (scheduled w) (vendor_calls w ++ [SetMode (PStr token)])) /\
    (fst answer = None -> fst (set_operation_mode (PStr m) w) = Ok tt) /\
    (In m ["heat"; "cool"; "off"; "eco"] -> token = m /\ errors = []) /\
    (m = "auto" -> token = "heat-cool" /\ errors = []) /\
    (~ In m ["heat"; "cool"; "off"; "eco"] -> m <> "auto" ->
     token = "off" /\
     errors =
       [mkLog ERROR
          "An error occurred while setting device mode. Invalid operation mode: %s"
          (ArgVal (PStr m))]).
Proof.
  unfold set_operation_mode, bind, ret, logger.
  destruct (py_in_strs (PStr m)
              [STATE_HEAT; STATE_COOL; STATE_OFF; STATE_ECO]) eqn:Ein.
  - apply py_in_strs_true in Ein as (m' & Hin & Hm). injection Hm as <-.
    assert (Hauto : m <> "auto")
      by (intros ->; simpl in Hin; intuition discriminate).
    exists m, []. rewrite assign_device_run, app_nil_r. simpl.
    split; [reflexivity|]. split; [intros H; unfold NEST_MODE_HEAT_COOL, STATE_OFF; now rewrite H|].
    split; [now split|]. split; [intros ->; now elim Hauto|].
    intros Hnot. now elim Hnot.
  - assert (Hnot : ~ In m ["heat"; "cool"; "off"; "eco"]).
    { intros Hin. rewrite py_in_strs_false in Ein. now apply (Ein m). }
    destruct (py_eq_str (PStr m) STATE_AUTO) eqn:Eauto.
    + apply py_eq_str_true in Eauto. injection Eauto as ->.
      exists "heat-cool", []. rewrite assign_device_run, app_nil_r. simpl.
      split; [reflexivity|]. split; [intros H; unfold NEST_MODE_HEAT_COOL, STATE_OFF; now rewrite H|].
      split; [intros Hin; now elim Hnot|]. split; [now split|].
      intros _ Hne. now elim Hne.
    + apply py_eq_str_false in Eauto.
      assert (Hauto : m <> "auto") by (intros ->; now elim Eauto).
      eexists "off", _. simpl. rewrite assign_device_run. simpl.
      split; [reflexivity|]. split; [intros H; unfold NEST_MODE_HEAT_COOL, STATE_OFF; now rewrite H|].
      split; [intros Hin; now elim Hnot|].
      split; [intros ->; now elim Hauto|]. now split.
Qed.

(** ** Further properties *)

(** *** The fan command *)

Lemma ascii_lower_not_upper (c : ascii) :
  is_ascii_upper (ascii_lower c) = false.
Proof. destruct c as [[] [] [] [] [] [] [] []]; reflexivity. Qed.

Lemma ascii_lower_idempotent (c : ascii) :
  ascii_lower (ascii_lower c) = ascii_lower c.
Proof. destruct c as [[] [] [] [] [] [] [] []]; reflexivity. Qed.

Lemma string_lower_no_upper (s : string) :
  string_forallb (fun c => negb (is_ascii_upper c)) (string_lower s) = true.
Proof.
  induction s as [|c s IH]; simpl; [reflexivity|].
  now rewrite ascii_lower_not_upper, IH.
Qed.

Lemma string_lower_idempotent (s : string) :
  string_lower (string_lower s) = string_lower s.
Proof.
  induction s as [|c s IH]; simpl; [reflexivity|].
  now rewrite ascii_lower_idempotent, IH.
Qed.

Lemma ascii_lower_stays_ascii (c : ascii) :
  (nat_of_ascii c <? 128)%nat = true ->
  (nat_of_ascii (ascii_lower c) <? 128)%nat = true.
Proof. destruct c as [[] [] [] [] [] [] [] []]; vm_compute; congruence. Qed.

Lemma string_lower_stays_ascii (s : string) :
  is_ascii_text s = true -> is_ascii_text (string_lower s) = true.
Proof.
  induction s as [|c s IH]; simpl; [reflexivity|].
  rewrite !andb_true_iff. intros [Hc Hs].
  split; [now apply ascii_lower_stays_ascii | now apply IH].
Qed.

Lemma str_lower_ascii (s : string) :
  is_ascii_text s = true -> str_lower s = string_lower s.
Proof. intros H. unfold str_lower. now rewrite H. Qed.

Lemma set_fan_mode_string (m : string) (w : World) :
  _has_fan (self w) = true ->
  set_fan_mode (PStr m) w =
    assign_device device_set_fan SetFan (PStr (str_lower m)) w.
Proof.
  intros Hfan. unfold set_fan_mode, bind, get_self, lift. simpl.
  now rewrite Hfan.
Qed.

(** X1: without fan hardware [set_fan_mode] does nothing at all, whatever
    it is given: it returns normally, even for an argument that is not a
    string, and leaves the device, the adapter, the log and the vendor
    trace as they were. *)
Theorem set_fan_mode_without_fan (fan_mode : pyval) (w : World) :
  _has_fan (self w) = false ->
  set_fan_mode fan_mode w = (Ok tt, w).
Proof.
  intros Hfan. unfold set_fan_mode, bind, get_self, ret. simpl.
  now rewrite Hfan.
Qed.


(** X3: for ASCII text, the string [set_fan_mode] assigns holds no
    upper-case letter, and giving that string back to [set_fan_mode] runs
    as the original call did: the command does not tell ON, On and on
    apart. *)
Theorem set_fan_mode_lowercase (m : string) (w : World) :
  _has_fan (self w) = true ->
  is_ascii_text m = true ->
  exists t,
    vendor_calls (snd (set_fan_mode (PStr m) w)) =
      vendor_calls w ++ [SetFan (PStr t)] /\
    string_forallb (fun c => negb (is_ascii_upper c)) t = true /\
    set_fan_mode (PStr t) w = set_fan_mode (PStr m) w.
Proof.
  intros Hfan Hm. exists (string_lower m).
  rewrite !(set_fan_mode_string _ w Hfan).
  rewrite (str_lower_ascii m Hm).
  rewrite (str_lower_ascii _ (string_lower_stays_ascii m Hm)).
  rewrite string_lower_idempotent, assign_device_run. simpl.
  auto using string_lower_no_upper.
Qed.

(** *** The refresh *)

Lemma attribute_eq_dec (a b : attribute) : {a = b} + {a <> b}.
Proof. decide equality. Qed.

Lemma cache_field_set (a b : attribute) (v : pyval) (s : NestThermostat) :
  cache_field b (set_cache_field a v s) =
  if attribute_eq_dec a b then v else cache_field b s.
Proof.
  destruct (attribute_eq_dec a b) as [<- | Hne].
  - destruct a; reflexivity.
  - destruct a, b; try reflexivity; now elim Hne.
Qed.

Lemma update_order_nodup : List.NoDup update_order.
Proof.
  unfold update_order.
  repeat (constructor; [simpl; intuition discriminate|]). constructor.
Qed.

(** The statements that have run, as one pass over the world. *)
Lemma refresh_from_interrupted faults before a after e (w : World) :
  (forall b, In b before -> faults b = None) ->
  faults a = Some e ->
  refresh_from faults (before ++ a :: after) w =
    (Raise e, fold_left (fun w b => store_attribute b w) before w).
Proof.
  revert w. induction before as [|x before IH]; intros w Hb Ha; simpl.
  - now rewrite Ha.
  - rewrite (Hb x) by now left. apply IH; auto.
    intros b Hin. apply Hb. now right.
Qed.

Lemma stored_attributes (steps : list attribute) (w : World) :
  let w' := fold_left (fun w b => store_attribute b w) steps w in
  device w' = device w /\ structure w' = structure w /\
  (forall b, In b steps ->
     cache_field b (self w') = value_to_cache b (read_attribute b w)) /\
  (forall b, ~ In b steps -> cache_field b (self w') = cache_field b (self w)).
Proof.
  revert w. induction steps as [|x steps IH]; intros w; simpl.
  - repeat split; tauto.
  - destruct (IH (store_attribute x w)) as (Hd & Hs & Hin & Hout).
    split; [exact Hd|]. split; [exact Hs|]. split.
    + intros b [<- | Hb].
      * destruct (in_dec attribute_eq_dec x steps) as [Hx | Hx].
        -- rewrite (Hin x Hx). destruct x; reflexivity.
        -- rewrite (Hout x Hx). unfold store_attribute. simpl.
           rewrite cache_field_set.
           now destruct (attribute_eq_dec x x).
      * rewrite (Hin b Hb). destruct b; reflexivity.
    + intros b Hb.
      rewrite Hout by (intros H; apply Hb; now right).
      unfold store_attribute. simpl. rewrite cache_field_set.
      destruct (attribute_eq_dec x b) as [Heq|]; [|reflexivity].
      elim Hb. now left.
Qed.

Lemma refresh_from_frame faults (steps : list attribute) (w : World) :
  let w' := snd (refresh_from faults steps w) in
  device w' = device w /\ structure w' = structure w /\
  log w' = log w /\ scheduled w' = scheduled w /\
  vendor_calls w' = vendor_calls w /\
  construction_fields (self w') = construction_fields (self w) /\
  _unit (self w') = _unit (self w).
Proof.
  revert w. induction steps as [|x steps IH]; intros w; simpl.
  - repeat split.
  - destruct (faults x); [repeat split|].
    destruct (IH (store_attribute x w)) as (H1 & H2 & H3 & H4 & H5 & H6 & H7).
    rewrite H1, H2, H3, H4, H5, H6, H7. repeat split.
Qed.

(** X4: [update] assigns nothing but cache fields, however far it gets:
    the device, the structure, the log, the refresh requests, the vendor
    trace and the fields of the constructor are as before.  When every
    read of the handles returns, the run is the wholesale copy: the cache
    it leaves is determined by the two handles and the fields of the
    constructor alone, and a second refresh changes nothing.  When a
    read raises, the exception reaches the caller, the fields whose
    statements came before that read are refreshed and all the others
    keep the values cached before. *)
Theorem update_wholesale (faults : attribute -> option exn) (w : World) :
  let w' := snd (update_reading faults w) in
  (device w' = device w /\ structure w' = structure w /\
   log w' = log w /\ scheduled w' = scheduled w /\
   vendor_calls w' = vendor_calls w /\
   construction_fields (self w') = construction_fields (self w) /\
   unique_id w' = unique_id w) /\
  ((forall a, faults a = None) -> update_reading faults w = update w) /\
  (forall before a after e,
     update_order = before ++ a :: after ->
     (forall b, In b before -> faults b = None) ->
     faults a = Some e ->
     fst (update_reading faults w) = Raise e /\
     (forall b, In b before ->
        cache_field b (self w') = value_to_cache b (read_attribute b w)) /\
     (forall b, In b (a :: after) ->
        cache_field b (self w') = cache_field b (self w))) /\
  snd (update (snd (update w))) = snd (update w) /\
  (forall w2,
     device w2 = device w -> structure w2 = structure w ->
     construction_fields (self w2) = construction_fields (self w) ->
     _unit (self w2) = _unit (self w) ->
     self (snd (update w2)) = self (snd (update w))).
Proof.
  intros w'. subst w'. split; [|split; [|split; [|split]]].
  - destruct (refresh_from_frame faults update_order w)
      as (H1 & H2 & H3 & H4 & H5 & H6 & _).
    unfold update_reading, unique_id. rewrite H1. auto 10.
  - intros Hnone. unfold update_reading, update_order. simpl.
    rewrite !Hnone. reflexivity.
  - intros before a after e Horder Hbefore Ha.
    unfold update_reading. rewrite Horder.
    rewrite (refresh_from_interrupted faults before a after e w Hbefore Ha).
    destruct (stored_attributes before w) as (_ & _ & Hin & Hout).
    simpl. split; [reflexivity|]. split; [exact Hin|].
    intros b Hb. apply Hout. intros Hb'.
    pose proof update_order_nodup as Hnd. rewrite Horder in Hnd.
    apply NoDup_app_remove_l in Hnd as Htail.
    assert (Hdis : ~ In b (a :: after)); [|exact (Hdis Hb)].
    clear Htail. revert Hnd Hb'. clear. intros Hnd Hb'.
    induction before as [|x before IH]; [contradiction|].
    simpl in Hnd. inversion Hnd as [|? ? Hx Hrest]; subst.
    destruct Hb' as [<- | Hb'].
    + intros Hin. apply Hx. apply in_or_app. now right.
    + now apply IH.
  - reflexivity.
  - intros w2 Hd Hs Hc Hu. unfold construction_fields in Hc.
    injection Hc as Hflags Hops Hfan Hlist.
    unfold update, with_self. simpl.
    now rewrite Hd, Hs, Hflags, Hops, Hfan, Hlist, Hu.
Qed.

(** X5: after [update] the unit of measurement is the Celsius constant
    exactly for a device whose scale reads the string C and the Fahrenheit
    constant for every other reading, a lower-case c or [None] included;
    the unit handed to the constructor plays no part in it. *)
Theorem temperature_unit_after_update (w : World) :
  let s := self (snd (update w)) in
  (Dev.temperature_scale (device w) = PStr "C" ->
   temperature_unit s = TEMP_CELSIUS) /\
  (Dev.temperature_scale (device w) <> PStr "C" ->
   temperature_unit s = TEMP_FAHRENHEIT) /\
  (Dev.temperature_scale (device w) = PStr "c" ->
   temperature_unit s = TEMP_FAHRENHEIT) /\
  (Dev.temperature_scale (device w) = PNone ->
   temperature_unit s = TEMP_FAHRENHEIT) /\
  (forall d u1 u2,
     temperature_unit (self (snd (update (with_self (init d u1) w)))) =
     temperature_unit (self (snd (update (with_self (init d u2) w))))).
Proof.
  unfold temperature_unit. simpl. repeat split.
  - intros H. now rewrite H.
  - intros H. apply py_eq_str_false in H. now rewrite H.
  - intros H. now rewrite H.
  - intros H. now rewrite H.
Qed.

(** After [update] the plain accessors read what the handles report:
    name, current temperature, minimum and maximum from the device, and
    the away flag is a boolean, which is true exactly when the structure
    reads away. *)
Lemma update_then_read (w : World) :
  let s := self (snd (update w)) in
  name s = Dev.name (device w) /\
  current_temperature s = Dev.temperature (device w) /\
  min_temp s = Dev.min_temperature (device w) /\
  max_temp s = Dev.max_temperature (device w) /\
  (exists b, is_away_mode_on s = PBool b /\
             (b = true <-> away (structure w) = PStr "away")).
Proof.
  simpl. repeat split.
  exists (py_eq_str (away (structure w)) "away"). split; [reflexivity|].
  apply py_eq_str_true.
Qed.

(** *** The accessors on particular caches *)

(** X6: an adapter that was constructed and never refreshed can be read
    without an exception: the three target accessors give [None] (the
    range accessors never index the missing eco range), name, current
    temperature, unit, minimum, maximum and away flag are [None], and the
    fan mode is auto with fan hardware and [None] without. *)
Theorem fresh_adapter_reads (d : Dev.t) (u : pyval) :
  let s := init d u in
  target_temperature s = PNone /\
  target_temperature_low s = Ok PNone /\
  target_temperature_high s = Ok PNone /\
  is_away_mode_on s = PNone /\
  name s = PNone /\
  current_temperature s = PNone /\
  temperature_unit s = PNone /\
  min_temp s = PNone /\
  max_temp s = PNone /\
  current_fan_mode s = (if Dev.has_fan d then PStr "auto" else PNone) /\
  fan_list s = (if Dev.has_fan d then Some ["on"; "auto"] else None).
Proof.
  unfold init.
  destruct (Dev.can_heat d), (Dev.can_cool d), (Dev.has_fan d);
    repeat split.
Qed.

Lemma py_index_pair (v : pyval) :
  is_pair v ->
  exists lo hi, py_index v 0 = Ok lo /\ py_index v 1 = Ok hi.
Proof. intros (lo & hi & ->). now exists lo, hi. Qed.

(** X7: when the device presents its eco range as a pair and, in the
    combined mode, its target as a pair, the two range accessors return a
    value after [update]: neither raises. *)
Theorem range_accessors_safe_after_update (w : World) :
  ranges_are_pairs (device w) ->
  exists lo hi,
    target_temperature_low (self (snd (update w))) = Ok lo /\
    target_temperature_high (self (snd (update w))) = Ok hi.
Proof.
  intros [Heco Htarget].
  destruct (py_index_pair _ Heco) as (elo & ehi & Helo & Hehi).
  unfold target_temperature_low, target_temperature_high, eco_bound_applies.
  simpl. rewrite Helo, Hehi.
  destruct (py_eq_str (Dev.mode (device w)) NEST_MODE_HEAT_COOL) eqn:Em.
  - apply py_eq_str_true in Em.
    destruct (py_index_pair _ (Htarget Em)) as (tlo & thi & Htlo & Hthi).
    rewrite Htlo, Hthi.
    destruct (py_eq_str (away (structure w)) "away"
              || py_eq_str (Dev.mode (device w)) STATE_ECO);
      destruct (truthy elo), (truthy ehi); eauto.
  - destruct (py_eq_str (away (structure w)) "away"
              || py_eq_str (Dev.mode (device w)) STATE_ECO);
      destruct (truthy elo), (truthy ehi); eauto.
Qed.

(** X8: the range accessors raise when the range they consult cannot be
    indexed.  While eco governs, an eco range that is [None] makes both
    raise [TypeError] and a range of one element makes the high accessor
    raise [IndexError]; in the combined mode, when the eco rule does not
    apply, a cached target that is a single number makes them raise
    [TypeError]. *)
Theorem range_accessors_fault (s : NestThermostat) :
  (eco_governs s -> _eco_temperature s = PNone ->
   target_temperature_low s = Raise TypeError /\
   target_temperature_high s = Raise TypeError) /\
  (forall x, eco_governs s -> _eco_temperature s = PTuple [x] ->
   target_temperature_high s = Raise IndexError) /\
  (forall n, ~ eco_governs s -> _mode s = PStr "heat-cool" ->
   _target_temperature s = PNum n ->
   target_temperature_low s = Raise TypeError /\
   target_temperature_high s = Raise TypeError).
Proof.
  unfold target_temperature_low, target_temperature_high, eco_bound_applies.
  split; [|split].
  - intros Hg He. apply eco_governs_test in Hg. now rewrite Hg, He.
  - intros x Hg He. apply eco_governs_test in Hg. now rewrite Hg, He.
  - intros n Hg Hm Ht.
    destruct (truthy (is_away_mode_on s) || py_eq_str (_mode s) STATE_ECO)
      eqn:E; [apply eco_governs_test in E; contradiction|].
    now rewrite Hm, Ht.
Qed.

(** X9: the single target and the range are never shown together: when
    [target_temperature] returns a value other than [None], both range
    accessors return [None]. *)
Theorem single_target_excludes_range (s : NestThermostat) :
  target_temperature s <> PNone ->
  target_temperature_low s = Ok PNone /\
  target_temperature_high s = Ok PNone.
Proof.
  unfold target_temperature. intros H.
  destruct (py_eq_str (_mode s) NEST_MODE_HEAT_COOL) eqn:Eh;
    [now elim H|].
  destruct (py_eq_str (_mode s) STATE_ECO) eqn:Ee; [now elim H|].
  destruct (truthy (is_away_mode_on s)) eqn:Ea; [now elim H|].
  unfold target_temperature_low, target_temperature_high, eco_bound_applies.
  now rewrite Ea, Ee, Eh.
Qed.

(** *** Setting the target *)

(** The run of [set_temperature] once it assigns the target [v]. *)
Lemma set_temperature_run kwargs (w : World) (v : pyval) :
  (exists rest,
     vendor_calls (snd (set_temperature kwargs w)) =
     vendor_calls w ++ SetTarget v :: rest) ->
  let answer := device_set_target (device w) v in
  let debug := mkLog DEBUG "Nest set_temperature-output-value=%s" (ArgVal v) in
  let after extra requests :=
    mkWorld (self w) (snd answer) (structure w) (log w ++ debug :: extra)
      (scheduled w ++ requests) (vendor_calls w ++ [SetTarget v]) in
  set_temperature kwargs w =
    match fst answer with
    | None => (Ok tt, after [] [])
    | Some (APIError info) =>
        (Ok tt,
         after
           [mkLog ERROR "An error occurred while setting temperature: %s"
              (ArgExn (APIError info))]
           [true])
    | Some e => (Raise e, after [] [])
    end.
Proof.
  intros [rest Hcall]. cbv zeta. revert Hcall.
  unfold set_temperature, try_except_APIError, bind, get_self, ret,
    logger, schedule_update_ha_state.
  repeat (simpl; split_if); simpl;
    try (intros Hcall; rewrite <- (app_nil_r (vendor_calls w)) in Hcall at 1;
         apply app_inv_head in Hcall; discriminate);
    rewrite assign_device_run; simpl;
    intros Hcall;
    match goal with
    | |- context [device_set_target (device w) ?temp] =>
        assert (Hv : temp = v);
        [ destruct (device_set_target (device w) temp) as [[[]|] d''];
          simpl in Hcall; apply app_inv_head in Hcall; congruence
        | rewrite Hv in *;
          destruct (device_set_target (device w) v) as [[[]|] d''] ]
    end; simpl; rewrite ?app_nil_r, <- ?app_assoc; reflexivity.
Qed.

(** X10: when the vendor accepts the assignment, [set_temperature]
    returns normally with the device as the vendor left it; it logs its
    one debug record, asks for no refresh and leaves the adapter object
    and its cache as they were, so the accessors show the old target
    until the next [update]. *)
Theorem set_temperature_accepted
    kwargs (w : World) (v : pyval) (d' : Dev.t) :
  (exists rest,
     vendor_calls (snd (set_temperature kwargs w)) =
     vendor_calls w ++ SetTarget v :: rest) ->
  device_set_target (device w) v = (None, d') ->
  set_temperature kwargs w =
    (Ok tt,
     mkWorld (self w) d' (structure w)
       (log w ++
        [mkLog DEBUG "Nest set_temperature-output-value=%s" (ArgVal v)])
       (scheduled w) (vendor_calls w ++ [SetTarget v])) /\
  target_temperature (self (snd (set_temperature kwargs w))) =
    target_temperature (self w).
Proof.
  intros Hcall Hv. rewrite (set_temperature_run kwargs w v Hcall), Hv.
  simpl. now rewrite app_nil_r.
Qed.

(** X11: only the API fault of the vendor is caught.  When the
    assignment of the target raises any other exception, that exception
    reaches the caller of [set_temperature]: no error is logged and no
    refresh is requested. *)
Theorem set_temperature_other_fault
    kwargs (w : World) (v : pyval) (e : exn) (d' : Dev.t) :
  (exists rest,
     vendor_calls (snd (set_temperature kwargs w)) =
     vendor_calls w ++ SetTarget v :: rest) ->
  device_set_target (device w) v = (Some e, d') ->
  (forall info, e <> APIError info) ->
  set_temperature kwargs w =
    (Raise e,
     mkWorld (self w) d' (structure w)
       (log w ++
        [mkLog DEBUG "Nest set_temperature-output-value=%s" (ArgVal v)])
       (scheduled w) (vendor_calls w ++ [SetTarget v])).
Proof.
  intros Hcall Hv He. rewrite (set_temperature_run kwargs w v Hcall), Hv.
  simpl. rewrite app_nil_r.
  destruct e; try reflexivity. now elim (He info).
Qed.

(** X12: the API fault of the vendor never leaves [set_temperature],
    whatever the arguments, the cache and the vendor are. *)
Theorem set_temperature_contains_api_fault kwargs (w : World) (info : string) :
  fst (set_temperature kwargs w) <> Raise (APIError info).
Proof.
  unfold set_temperature, try_except_APIError, bind, get_self, ret,
    logger, schedule_update_ha_state.
  repeat (simpl; split_if); simpl; try discriminate;
    rewrite assign_device_run; simpl;
    match goal with
    | |- context [device_set_target (device w) ?temp] =>
        destruct (device_set_target (device w) temp) as [[[]|] d'']
    end; simpl; discriminate.
Qed.

(** X13: [set_temperature] reads only the arguments of the cached mode.
    In the combined mode two calls that agree on the low and the high
    target run alike, whatever single target they carry; in every other
    mode two calls that agree on the single target run alike, whatever
    bounds they carry. *)
Theorem set_temperature_reads_mode_arguments kwargs1 kwargs2 (w : World) :
  (_mode (self w) = PStr "heat-cool" ->
   kwargs_get kwargs1 ATTR_TARGET_TEMP_LOW =
     kwargs_get kwargs2 ATTR_TARGET_TEMP_LOW ->
   kwargs_get kwargs1 ATTR_TARGET_TEMP_HIGH =
     kwargs_get kwargs2 ATTR_TARGET_TEMP_HIGH ->
   set_temperature kwargs1 w = set_temperature kwargs2 w) /\
  (_mode (self w) <> PStr "heat-cool" ->
   kwargs_get kwargs1 ATTR_TEMPERATURE =
     kwargs_get kwargs2 ATTR_TEMPERATURE ->
   set_temperature kwargs1 w = set_temperature kwargs2 w).
Proof.
  unfold set_temperature, bind, get_self. simpl. split.
  - intros Hm Hlow Hhigh. now rewrite Hm, Hlow, Hhigh.
  - intros Hm Ht. apply py_eq_str_false in Hm. unfold NEST_MODE_HEAT_COOL.
    now rewrite Hm, Ht.
Qed.

(** X14: over a vendor that stores the assigned target, a single target
    set outside the combined and eco modes with away-mode off is the
    value [target_temperature] shows after the next [update]; the cache
    has to agree with the mode the device reports. *)
Theorem set_temperature_single_round_trip kwargs (w : World) (t : pyval) :
  (forall d v, device_set_target d v = (None, store_target d v)) ->
  Dev.mode (device w) = _mode (self w) ->
  _mode (self w) <> PStr "heat-cool" ->
  _mode (self w) <> PStr "eco" ->
  away (structure w) <> PStr "away" ->
  kwargs_get kwargs ATTR_TEMPERATURE = t ->
  t <> PNone ->
  let w' := snd (update (snd (set_temperature kwargs w))) in
  target_temperature (self w') = t /\
  target_temperature_low (self w') = Ok PNone /\
  target_temperature_high (self w') = Ok PNone.
Proof.
  intros Hstore Hsync Hh He Ha Ht Hn w'. subst w'.
  assert (Hcall : exists rest,
            vendor_calls (snd (set_temperature kwargs w)) =
            vendor_calls w ++ SetTarget t :: rest).
  { apply set_temperature_assigns. right. rewrite Ht. auto. }
  rewrite (set_temperature_run kwargs w t Hcall), Hstore. simpl.
  apply py_eq_str_false in Hh, He, Ha.
  unfold target_temperature, target_temperature_low, target_temperature_high,
    eco_bound_applies, NEST_MODE_HEAT_COOL, STATE_ECO.
  simpl. now rewrite Hsync, Hh, He, Ha.
Qed.

(** X15: over a vendor that stores the assigned target, a low and a high
    target set in the combined mode with away-mode off are the values the
    range accessors show after the next [update], and the single target
    accessor shows [None]. *)
Theorem set_temperature_range_round_trip kwargs (w : World) (lo hi : pyval) :
  (forall d v, device_set_target d v = (None, store_target d v)) ->
  Dev.mode (device w) = _mode (self w) ->
  _mode (self w) = PStr "heat-cool" ->
  away (structure w) <> PStr "away" ->
  kwargs_get kwargs ATTR_TARGET_TEMP_LOW = lo ->
  kwargs_get kwargs ATTR_TARGET_TEMP_HIGH = hi ->
  lo <> PNone -> hi <> PNone ->
  let w' := snd (update (snd (set_temperature kwargs w))) in
  target_temperature (self w') = PNone /\
  target_temperature_low (self w') = Ok lo /\
  target_temperature_high (self w') = Ok hi.
Proof.
  intros Hstore Hsync Hh Ha Hlo Hhi Hnl Hnh w'. subst w'.
  assert (Hcall : exists rest,
            vendor_calls (snd (set_temperature kwargs w)) =
            vendor_calls w ++ SetTarget (PTuple [lo; hi]) :: rest).
  { apply set_temperature_assigns. left. rewrite Hlo, Hhi. auto. }
  rewrite (set_temperature_run kwargs w _ Hcall), Hstore. simpl.
  apply py_eq_str_false in Ha.
  unfold target_temperature, target_temperature_low, target_temperature_high,
    eco_bound_applies.
  simpl. now rewrite Hsync, Hh, Ha.
Qed.

(** *** Setting the mode *)

(** The run of [set_operation_mode] on any value. *)
Lemma set_operation_mode_run (operation_mode : pyval) (w : World) :
  exists token errors,
    In token ["heat"; "cool"; "off"; "eco"; "heat-cool"] /\
    (py_in_strs operation_mode ["heat"; "cool"; "off"; "eco"; "auto"] = true
     -> errors = []) /\
    set_operation_mode operation_mode w =
      (finish (fst (device_set_mode (device w) (PStr token))),
       mkWorld (self w) (snd (device_set_mode (device w) (PStr token)))
         (structure w) (log w ++ errors) (scheduled w)
         (vendor_calls w ++ [SetMode (PStr token)])).
Proof.
  unfold set_operation_mode, bind, ret, logger.
  destruct (py_in_strs operation_mode
              [STATE_HEAT; STATE_COOL; STATE_OFF; STATE_ECO]) eqn:Ein.
  - apply py_in_strs_true in Ein as (m & Hin & ->).
    exists m, []. rewrite assign_device_run, app_nil_r.
    split; [simpl in *; tauto | split; [reflexivity | reflexivity]].
  - destruct (py_eq_str operation_mode STATE_AUTO) eqn:Eauto.
    + exists "heat-cool", []. rewrite assign_device_run, app_nil_r.
      split; [simpl; tauto | split; [reflexivity | reflexivity]].
    + exists "off",
        [mkLog ERROR
           "An error occurred while setting device mode. Invalid operation mode: %s"
           (ArgVal operation_mode)].
      split; [simpl; tauto|].
      split; [|simpl; rewrite assign_device_run; reflexivity].
      intros Hrec. apply py_in_strs_true in Hrec as (m & Hin & ->).
      rewrite py_in_strs_false in Ein. apply py_eq_str_false in Eauto.
      simpl in Hin.
      destruct Hin as [<- | [<- | [<- | [<- | [<- | []]]]]];
        solve [ now elim Eauto | exfalso; eapply Ein; [|reflexivity];
                simpl; tauto ].
Qed.

(** X16: whatever value [set_operation_mode] is given, a string or not,
    it assigns to the mode field exactly once, and what it assigns is one
    of the five vendor tokens heat, cool, off, eco and heat-cool: the
    host name auto and any foreign value never reach the device. *)
Theorem set_operation_mode_vendor_tokens (operation_mode : pyval) (w : World) :
  exists token,
    In token ["heat"; "cool"; "off"; "eco"; "heat-cool"] /\
    vendor_calls (snd (set_operation_mode operation_mode w)) =
      vendor_calls w ++ [SetMode (PStr token)] /\
    self (snd (set_operation_mode operation_mode w)) = self w /\
    structure (snd (set_operation_mode operation_mode w)) = structure w /\
    scheduled (snd (set_operation_mode operation_mode w)) = scheduled w.
Proof.
  destruct (set_operation_mode_run operation_mode w)
    as (token & errors & Hin & _ & Hrun).
  exists token. rewrite Hrun. simpl. auto.
Qed.

(** X17: [current_operation] speaks the vocabulary of the host only: it is
    one of heat, cool, off, eco, auto and unknown for every cached mode,
    so the combined token of the vendor is never shown. *)
Theorem current_operation_vocabulary (s : NestThermostat) :
  (exists m, In m ["heat"; "cool"; "off"; "eco"; "auto"; "unknown"] /\
             current_operation s = PStr m) /\
  current_operation s <> PStr "heat-cool".
Proof.
  assert (H : exists m,
            In m ["heat"; "cool"; "off"; "eco"; "auto"; "unknown"] /\
            current_operation s = PStr m).
  { unfold current_operation.
    destruct (py_in_strs (_mode s)
                [STATE_HEAT; STATE_COOL; STATE_OFF; STATE_ECO]) eqn:Ein.
    - apply py_in_strs_true in Ein as (m & Hin & ->).
      exists m. split; [simpl in *; tauto | reflexivity].
    - destruct (py_eq_str (_mode s) NEST_MODE_HEAT_COOL).
      + exists "auto". split; [simpl; tauto | reflexivity].
      + exists "unknown". split; [simpl; tauto | reflexivity]. }
  split; [exact H|].
  destruct H as (m & Hin & ->). simpl in Hin.
  intros Heq. injection Heq as ->. intuition discriminate.
Qed.

(** X18: over a vendor that stores the assigned mode, setting one of the
    five host modes and refreshing shows that mode again, auto included
    although the device holds another token for it; setting any other
    string shows off. *)
Theorem set_operation_mode_round_trip (m : string) (w : World) :
  (forall d v, device_set_mode d v = (None, store_mode d v)) ->
  let shown :=
    current_operation
      (self (snd (update (snd (set_operation_mode (PStr m) w))))) in
  (In m ["heat"; "cool"; "off"; "eco"; "auto"] -> shown = PStr m) /\
  (~ In m ["heat"; "cool"; "off"; "eco"; "auto"] -> shown = PStr "off").
Proof.
  intros Hstore shown. subst shown. split.
  - intros Hin. simpl in Hin.
    destruct Hin as [<- | [<- | [<- | [<- | [<- | []]]]]];
      unfold set_operation_mode, bind, ret; simpl;
      rewrite assign_device_run, Hstore; reflexivity.
  - intros Hnot.
    assert (Ein : py_in_strs (PStr m)
                    [STATE_HEAT; STATE_COOL; STATE_OFF; STATE_ECO] = false).
    { apply py_in_strs_false. intros m' Hin Hm. injection Hm as <-.
      apply Hnot. simpl in *. tauto. }
    assert (Eauto : py_eq_str (PStr m) STATE_AUTO = false).
    { apply py_eq_str_false. intros Hm. injection Hm as ->.
      apply Hnot. simpl. tauto. }
    unfold set_operation_mode, bind, ret, logger. rewrite Ein, Eauto.
    simpl. rewrite assign_device_run, Hstore. reflexivity.
Qed.

(** X19: the operation list the constructor builds holds no mode twice,
    and every mode on it is one [set_operation_mode] accepts: setting an
    advertised mode logs no error. *)
Theorem advertised_modes_accepted (d : Dev.t) (u : pyval) (w : World) :
  List.NoDup (operation_list (init d u)) /\
  (forall m, In m (operation_list (init d u)) ->
     log (snd (set_operation_mode (PStr m) w)) = log w).
Proof.
  split.
  - unfold operation_list, init.
    destruct (Dev.can_heat d), (Dev.can_cool d); simpl;
      repeat (constructor; [simpl; intuition discriminate|]); constructor.
  - intros m Hin.
    destruct (set_operation_mode_run (PStr m) w)
      as (token & errors & _ & Hrec & Hrun).
    rewrite Hrun. simpl. rewrite Hrec; [apply app_nil_r|].
    apply py_in_strs_true. exists m. split; [|reflexivity].
    unfold operation_list, init in Hin.
    destruct (Dev.can_heat d), (Dev.can_cool d); simpl in *; tauto.
Qed.

(** *** Runs of commands *)

Lemma perform_all_construction_fields (cs : list command) (w : World) :
  construction_fields (self (perform_all cs w)) =
  construction_fields (self w).
Proof.
  revert w. induction cs as [|c cs IH]; intros w; simpl; [reflexivity|].
  rewrite IH. apply perform_construction_fields.
Qed.

(** X20: on an adapter that was constructed and then driven by any run
    of commands, the fan mode and the list of fan modes agree: the list
    is missing exactly when the mode is [None], and otherwise the mode is
    one of the modes on the list. *)
Theorem fan_mode_is_advertised (d : Dev.t) (u : pyval)
    (cs : list command) (w : World) :
  let s := self (perform_all cs (with_self (init d u) w)) in
  (fan_list s = None <-> current_fan_mode s = PNone) /\
  (forall modes, fan_list s = Some modes ->
     exists m, In m modes /\ current_fan_mode s = PStr m).
Proof.
  intros s. subst s.
  pose proof (perform_all_construction_fields cs (with_self (init d u) w))
    as Hc.
  unfold construction_fields in Hc. simpl in Hc.
  injection Hc as _ _ Hfan Hlist.
  assert (Hl : _fan_list (init d u) = [STATE_ON; STATE_AUTO])
    by (unfold init; destruct (Dev.can_heat d), (Dev.can_cool d); reflexivity).
  rewrite Hl in Hlist.
  unfold fan_list, current_fan_mode. rewrite Hlist.
  destruct (_has_fan _); [|split; [tauto | discriminate]].
  split.
  - destruct (truthy _); split; discriminate.
  - intros modes Hm. injection Hm as <-.
    destruct (truthy _); eexists; (split; [|reflexivity]); simpl; tauto.
Qed.

(** X21: over a vendor whose structure reads away after [True] was
    assigned and something else after [False] was, turning away-mode on
    and refreshing makes [is_away_mode_on] true and hides the single
    target, and turning it off and refreshing makes it false. *)
Theorem away_mode_round_trip (w : World) :
  (forall st, fst (structure_set_away st (PBool true)) = None /\
              away (snd (structure_set_away st (PBool true))) = PStr "away") ->
  (forall st, fst (structure_set_away st (PBool false)) = None /\
              away (snd (structure_set_away st (PBool false))) <> PStr "away") ->
  let on := snd (update (snd (turn_away_mode_on w))) in
  let off := snd (update (snd (turn_away_mode_off on))) in
  fst (turn_away_mode_on w) = Ok tt /\
  is_away_mode_on (self on) = PBool true /\
  target_temperature (self on) = PNone /\
  fst (turn_away_mode_off on) = Ok tt /\
  is_away_mode_on (self off) = PBool false.
Proof.
  intros Hon Hoff on off. subst on off.
  unfold turn_away_mode_on, turn_away_mode_off. rewrite !assign_away_run.
  cbn [fst snd structure update with_self self is_away_mode_on _away].
  destruct (Hon (structure w)) as [Hr Ha].
  destruct (Hoff (snd (structure_set_away (structure w) (PBool true))))
    as [Hr' Ha'].
  apply py_eq_str_false in Ha'.
  rewrite Hr, Hr', Ha, Ha'. repeat split.
  unfold target_temperature. simpl. now rewrite !andb_false_r.
Qed.

Lemma set_fan_mode_calls (fan_mode : pyval) (w : World) :
  exists calls,
    vendor_calls (snd (set_fan_mode fan_mode w)) = vendor_calls w ++ calls /\
    (calls = [] \/ exists v, calls = [SetFan v]).
Proof.
  unfold set_fan_mode, bind, get_self, lift, ret. simpl.
  destruct (_has_fan (self w));
    [|exists []; rewrite app_nil_r; auto].
  destruct (py_lower fan_mode);
    [|exists []; rewrite app_nil_r; auto].
  rewrite assign_device_run. simpl. eauto.
Qed.

(** X22: a command makes at most one assignment on the vendor handles,
    and only of its own kind: [set_temperature] the target,
    [set_operation_mode] the mode, [set_fan_mode] the fan, the away
    commands the away field with [True] and [False]; [update] assigns
    nothing. *)
Theorem command_assigns_once (c : command) (w : World) :
  exists calls,
    vendor_calls (snd (perform c w)) = vendor_calls w ++ calls /\
    (length calls <= 1)%nat /\
    Forall (call_of c) calls.
Proof.
  destruct c; simpl.
  - exists []. rewrite app_nil_r. auto.
  - rewrite set_temperature_calls. cbv zeta.
    repeat split_if; eexists; (split; [reflexivity|]); simpl;
      repeat constructor.
  - destruct (set_operation_mode_run operation_mode w)
      as (token & errors & _ & _ & Hrun).
    rewrite Hrun. simpl. eexists; (split; [reflexivity|]); simpl;
      repeat constructor.
  - destruct (set_fan_mode_calls fan_mode w)
      as (calls & -> & [-> | (v & ->)]);
      eexists; (split; [reflexivity|]); simpl; repeat constructor.
  - unfold turn_away_mode_on. rewrite assign_away_run. simpl.
    eexists; (split; [reflexivity|]); simpl; repeat constructor.
  - unfold turn_away_mode_off. rewrite assign_away_run. simpl.
    eexists; (split; [reflexivity|]); simpl; repeat constructor.
Qed.

Lemma set_temperature_scheduled kwargs (w : World) :
  exists requests,
    scheduled (snd (set_temperature kwargs w)) = scheduled w ++ requests /\
    (requests = [] \/ requests = [true]).
Proof.
  unfold set_temperature, try_except_APIError, bind, get_self, ret,
    logger, schedule_update_ha_state.
  repeat (simpl; split_if); simpl;
    try (exists []; rewrite app_nil_r; now auto);
    rewrite assign_device_run; simpl;
    match goal with
    | |- context [device_set_target (device w) ?temp] =>
        destruct (device_set_target (device w) temp) as [[[]|] d'']
    end; simpl;
    solve [ exists []; rewrite app_nil_r; auto | exists [true]; auto ].
Qed.

Lemma perform_scheduled (c : command) (w : World) :
  exists requests,
    scheduled (snd (perform c w)) = scheduled w ++ requests /\
    Forall (eq true) requests /\
    (length requests <= count_set_temperature [c])%nat.
Proof.
  destruct c; simpl.
  - exists []. rewrite app_nil_r. auto.
  - destruct (set_temperature_scheduled kwargs w)
      as (requests & -> & [-> | ->]); eexists; (split; [reflexivity|]);
      simpl; auto.
  - destruct (set_operation_mode_run operation_mode w)
      as (token & errors & _ & _ & Hrun).
    rewrite Hrun. exists []. simpl. rewrite app_nil_r. auto.
  - exists []. rewrite app_nil_r.
    unfold set_fan_mode, bind, get_self, lift, ret. simpl.
    destruct (_has_fan (self w)); [|auto].
    destruct (py_lower fan_mode); [|auto].
    rewrite assign_device_run. auto.
  - exists []. unfold turn_away_mode_on.
    rewrite assign_away_run, app_nil_r. auto.
  - exists []. unfold turn_away_mode_off.
    rewrite assign_away_run, app_nil_r. auto.
Qed.

Lemma count_set_temperature_cons (c : command) (cs : list command) :
  count_set_temperature (c :: cs) =
  (count_set_temperature [c] + count_set_temperature cs)%nat.
Proof. destruct c; reflexivity. Qed.

(** X23: over any run of commands the refresh requests made to the host
    only grow, every request made is a forced one, and there are at most
    as many of them as there were [set_temperature] calls: no other
    command asks for a refresh. *)
Theorem run_requests_forced_refresh (cs : list command) (w : World) :
  exists requests,
    scheduled (perform_all cs w) = scheduled w ++ requests /\
    Forall (eq true) requests /\
    (length requests <= count_set_temperature cs)%nat.
Proof.
  revert w. induction cs as [|c cs IH]; intros w.
  - exists []. simpl. rewrite app_nil_r. auto.
  - destruct (perform_scheduled c w) as (r1 & H1 & F1 & L1).
    destruct (IH (snd (perform c w))) as (r2 & H2 & F2 & L2).
    exists (r1 ++ r2). cbn [perform_all].
    rewrite H2, H1, <- app_assoc. split; [reflexivity|].
    split; [apply Forall_app; auto|].
    rewrite count_set_temperature_cons, length_app. lia.
Qed.

(** X24: the commands keep to their handle.  The three device commands
    and [update] leave the structure as it was, the two away commands and
    [update] leave the device as it was, and no command but [update]
    changes the adapter object. *)
Theorem command_frames (c : command) (w : World) :
  (c <> TurnAwayModeOn -> c <> TurnAwayModeOff ->
   structure (snd (perform c w)) = structure w) /\
  (c = TurnAwayModeOn \/ c = TurnAwayModeOff \/ c = Update ->
   device (snd (perform c w)) = device w) /\
  (c <> Update -> self (snd (perform c w)) = self w).
Proof.
  split; [|split].
  - intros Hon Hoff. destruct c; simpl; try congruence.
    + unfold set_temperature, try_except_APIError, bind, get_self, ret,
        logger, schedule_update_ha_state.
      repeat (simpl; split_if); simpl; try reflexivity;
        rewrite assign_device_run; simpl;
        match goal with
        | |- context [device_set_target (device w) ?temp] =>
            destruct (device_set_target (device w) temp) as [[[]|] d'']
        end; reflexivity.
    + destruct (set_operation_mode_run operation_mode w)
        as (token & errors & _ & _ & Hrun).
      now rewrite Hrun.
    + unfold set_fan_mode, bind, get_self, lift, ret. simpl.
      destruct (_has_fan (self w)); [|reflexivity].
      destruct (py_lower fan_mode); [|reflexivity].
      now rewrite assign_device_run.
  - intros [-> | [-> | ->]]; simpl; try reflexivity.
    + unfold turn_away_mode_on. now rewrite assign_away_run.
    + unfold turn_away_mode_off. now rewrite assign_away_run.
  - intros Hu. destruct c; simpl; try congruence.
    + apply set_temperature_self.
    + apply set_operation_mode_self.
    + apply set_fan_mode_self.
    + apply assign_away_self.
    + apply assign_away_self.
Qed.

(** *** The supported features *)

Ltac base_features H :=
  repeat rewrite has_feature_lor;
  repeat first
    [ feature_at H 0%nat 0%nat | feature_at H 0%nat 3%nat
    | feature_at H 0%nat 4%nat | feature_at H 1%nat 0%nat
    | feature_at H 1%nat 3%nat | feature_at H 1%nat 4%nat
    | feature_at H 2%nat 0%nat | feature_at H 2%nat 3%nat
    | feature_at H 2%nat 4%nat | feature_at H 3%nat 0%nat
    | feature_at H 3%nat 3%nat | feature_at H 3%nat 4%nat
    | feature_at H 4%nat 0%nat | feature_at H 4%nat 3%nat
    | feature_at H 4%nat 4%nat | feature_at H 5%nat 0%nat
    | feature_at H 5%nat 3%nat | feature_at H 5%nat 4%nat ].

(** X25: whatever the device can do, the constructor declares the single
    target, the operation mode and the away mode as supported, also for a
    device that can neither heat nor cool. *)
Theorem base_features_always_supported (d : Dev.t) (u : pyval) :
  independent_masks feature_masks ->
  has_feature (supported_features (init d u)) SUPPORT_TARGET_TEMPERATURE
    = true /\
  has_feature (supported_features (init d u)) SUPPORT_OPERATION_MODE
    = true /\
  has_feature (supported_features (init d u)) SUPPORT_AWAY_MODE = true.
Proof.
  intros H. unfold supported_features, init.
  destruct (Dev.can_heat d), (Dev.can_cool d), (Dev.has_fan d); simpl;
    repeat split; base_features H; reflexivity.
Qed.

End Nest.

(** ** Instances *)

(** C4 as first stated fails: in the combined heat-cool mode with cached
    range (18, 24), away-mode on and eco range (16, 22), the low accessor
    returns the eco bound 16. *)
Lemma target_temperature_low_away_counterexample :
  ~ (forall s : NestThermostat,
       _mode s = PStr "heat-cool" ->
       _target_temperature s = PTuple [PNum 18; PNum 24] ->
       target_temperature s = PNone /\
       target_temperature_low s = Ok (PNum 18) /\
       target_temperature_high s = Ok (PNum 24)).
Proof.
  intros H.
  destruct (H (cached (PStr "heat-cool") (PTuple [PNum 18; PNum 24])
                 (PBool true)) eq_refl eq_refl) as (_ & Hlow & _).
  vm_compute in Hlow. discriminate.
Qed.

(** The feature masks of the climate component are independent. *)
Lemma climate_masks_independent :
  independent_masks (feature_masks 1 2 4 128 1024 64).
Proof.
  split.
  - intros a Hin. simpl in Hin.
    repeat (destruct Hin as [<- | Hin]; [discriminate|]). contradiction.
  - intros i j a b Hne Ha Hb.
    do 7 (try destruct i as [|i]); do 7 (try destruct j as [|j]);
      simpl in Ha, Hb; try discriminate; try congruence;
      injection Ha as <-; injection Hb as <-; reflexivity.
Qed.

(** C1 at a thermostat in heat mode asked for 25 over a vendor that
    refuses the change. *)
Lemma set_temperature_api_fault_witness :
  let w := hall_world (PStr "heat") (PNum 20) (PBool false) in
  let run :=
    @set_temperature "target_temp_high" "target_temp_low" "temperature"
      refusing_vendor {[ "temperature" := PNum 25 ]} w in
  fst run = Ok tt /\
  scheduled (snd run) = [true] /\
  self (snd run) = self w /\
  vendor_calls (snd run) = [SetTarget (PNum 25)] /\
  _target_temperature
    (self (snd (update (PStr "C") (PStr "F") (snd run)))) = PNum 20.
Proof.
  intros w run.
  destruct (@set_temperature_api_fault (PStr "C") (PStr "F")
              "target_temp_high" "target_temp_low" "temperature"
              refusing_vendor {[ "temperature" := PNum 25 ]} w
              (PNum 25) "blocked" hall_device)
    as (Hret & _ & Hsched & Hself & Hcalls & _ & _ & Hrefresh).
  - exists []. vm_compute. reflexivity.
  - reflexivity.
  - repeat split; assumption.
Defined.

(** C2 at an unrecognised mode, over a vendor that stores the mode. *)
Lemma set_operation_mode_token_witness :
  let w := hall_world (PStr "heat") (PNum 20) (PBool false) in
  let run := @set_operation_mode verbatim_vendor (PStr "bogus") w in
  fst run = Ok tt /\
  vendor_calls (snd run) = [SetMode (PStr "off")] /\
  Dev.mode (device (snd run)) = PStr "off" /\
  length (log (snd run)) = 1%nat.
Proof.
  intros w run.
  destruct (@set_operation_mode_token verbatim_vendor "bogus" w)
    as (token & errors & Hrun & _ & _ & _ & Hother).
  destruct Hother as [-> ->].
  - simpl. intuition discriminate.
  - discriminate.
  - subst run. rewrite Hrun. repeat split.
Defined.

(** C3 with away-mode on, eco range (16, 22) and the combined mode. *)
Lemma target_temperature_range_precedence_witness :
  let s := cached (PStr "heat-cool") (PTuple [PNum 18; PNum 24]) (PBool true) in
  eco_governs s /\
  target_temperature_low s = Ok (PNum 16) /\
  target_temperature_high s = Ok (PNum 22).
Proof.
  intros s.
  assert (Hg : eco_governs s) by (left; reflexivity).
  destruct (target_temperature_range_precedence s) as (Heco & _).
  destruct (Heco (PNum 16) (PNum 22) Hg eq_refl) as (Hlow & Hhigh).
  split; [exact Hg|]. split; [apply Hlow | apply Hhigh]; reflexivity.
Defined.

(** C4 with the combined mode, range (18, 24) and away-mode off. *)
Lemma target_temperature_single_witness :
  let s := cached (PStr "heat-cool") (PTuple [PNum 18; PNum 24]) (PBool false) in
  truthy (is_away_mode_on s) = false /\
  target_temperature s = PNone /\
  target_temperature_low s = Ok (PNum 18) /\
  target_temperature_high s = Ok (PNum 24).
Proof.
  intros s.
  destruct (target_temperature_single s) as (_ & _ & Hrange).
  split; [reflexivity|]. apply Hrange; reflexivity.
Defined.

(** C5 at a device that heats, cools and has a fan. *)
Lemma init_operation_list_and_features_witness :
  let s := init 1 2 4 128 1024 64 hall_device (PStr "C") in
  operation_list s = ["off"; "heat"; "cool"; "auto"; "eco"] /\
  has_feature (supported_features s) 2 = true /\
  has_feature (supported_features s) 4 = true /\
  has_feature (supported_features s) 64 = true.
Proof.
  intros s.
  destruct (init_operation_list_and_features 1 2 4 128 1024 64
              hall_device (PStr "C") climate_masks_independent)
    as (_ & _ & _ & Hfan & _ & Hboth).
  destruct (Hboth eq_refl eq_refl) as (Hops & Hhigh & Hlow).
  repeat split; assumption.
Defined.

(** C6 at a cache holding heat, the combined token, and a foreign word. *)
Lemma current_operation_table_witness :
  current_operation (cached (PStr "heat") (PNum 20) (PBool false))
    = PStr "heat" /\
  current_operation (cached (PStr "heat-cool") (PNum 20) (PBool false))
    = PStr "auto" /\
  current_operation (cached (PStr "away") (PNum 20) (PBool false))
    = PStr "unknown".
Proof.
  split; [|split].
  - destruct (current_operation_table 1 2 4 128 1024 64
                (cached (PStr "heat") (PNum 20) (PBool false)))
      as (Hsame & _).
    apply (Hsame "heat"); [now left | reflexivity].
  - destruct (current_operation_table 1 2 4 128 1024 64
                (cached (PStr "heat-cool") (PNum 20) (PBool false)))
      as (_ & Hauto & _).
    now apply Hauto.
  - destruct (current_operation_table 1 2 4 128 1024 64
                (cached (PStr "away") (PNum 20) (PBool false)))
      as (_ & _ & Hother & _).
    apply Hother. intros m Hin Hm. simpl in Hin, Hm.
    injection Hm as <-. intuition discriminate.
Defined.

(** C8 at a device with a fan that is idle. *)
Lemma current_fan_mode_table_witness :
  let s := cached (PStr "heat") (PNum 20) (PBool false) in
  _has_fan s = true /\ truthy (_fan s) = false /\
  current_fan_mode s = PStr "auto".
Proof.
  intros s.
  destruct (current_fan_mode_table s) as (_ & Hidle & _).
  split; [reflexivity|]. split; [reflexivity|]. now apply Hidle.
Defined.

(** C9 over the vendor that stores assignments verbatim. *)
Lemma away_flag_round_trip_witness :
  let w := hall_world (PStr "heat") (PNum 20) (PBool false) in
  (forall st v,
     @structure_set_away verbatim_vendor st v = (None, mkStructure v)) /\
  is_away_mode_on
    (self (snd (update (PStr "C") (PStr "F")
                  (snd (@turn_away_mode_on verbatim_vendor w)))))
    = PBool false /\
  away (structure (snd (@turn_away_mode_on verbatim_vendor w))) = PBool true /\
  away (structure (snd (@turn_away_mode_off verbatim_vendor w))) = PBool false.
Proof.
  intros w.
  assert (Hstore : forall st v,
            @structure_set_away verbatim_vendor st v = (None, mkStructure v))
    by reflexivity.
  destruct (@away_flag_round_trip (PStr "C") (PStr "F") verbatim_vendor w)
    as (_ & _ & _ & _ & _ & _ & Htrip).
  destruct (Htrip Hstore) as (_ & Hon & Hshown & _ & Hoff & _).
  split; [exact Hstore|]. split; [exact Hshown|].
  split; [exact Hon | exact Hoff].
Defined.

(** C10 in the combined mode with only the low target given. *)
Lemma set_temperature_missing_arguments_witness :
  let w :=
    hall_world (PStr "heat-cool") (PTuple [PNum 18; PNum 24]) (PBool false) in
  let run :=
    @set_temperature "target_temp_high" "target_temp_low" "temperature"
      refusing_vendor {[ "target_temp_low" := PNum 19 ]} w in
  kwargs_get {[ "target_temp_low" := PNum 19 ]} "target_temp_high" = PNone /\
  fst run = Ok tt /\
  vendor_calls (snd run) = [] /\
  device (snd run) = device w /\
  self (snd run) = self w.
Proof.
  intros w run.
  assert (Habsent :
    kwargs_get {[ "target_temp_low" := PNum 19 ]} "target_temp_high" = PNone)
    by (vm_compute; reflexivity).
  destruct (@set_temperature_missing_arguments
              "target_temp_high" "target_temp_low" "temperature"
              refusing_vendor {[ "target_temp_low" := PNum 19 ]} w)
    as (Hret & Hcalls & Hdev & _ & Hself & _).
  - left. split; [reflexivity | right; exact Habsent].
  - repeat split; assumption.
Defined.

(** ** Runs on concrete inputs *)

(** An exception of the vendor while the mode is assigned is not caught
    by [set_operation_mode]: it reaches the caller, for a recognised mode
    and for an unrecognised one alike. *)
Example set_operation_mode_vendor_fault :
  let w := hall_world (PStr "heat") (PNum 20) (PBool false) in
  fst (@set_operation_mode unreachable_vendor (PStr "cool") w)
    = Raise (APIError "unreachable") /\
  fst (@set_operation_mode unreachable_vendor (PStr "bogus") w)
    = Raise (APIError "unreachable").
Proof. split; reflexivity. Qed.

(** The range accessors index the cached eco range as soon as eco
    governs; a cache whose eco range is [None] makes them raise. *)
Example target_temperature_low_without_eco_range :
  target_temperature_low
    {| _unit := PStr "C"; _fan_list := ["on"; "auto"]; _support_flags := 0;
       _operation_list := ["off"; "eco"]; _has_fan := false;
       _away := PBool true; _location := PNone; _name := PNone;
       _humidity := PNone; _target_temperature := PNum 20;
       _temperature := PNone; _temperature_scale := PNone;
       _mode := PStr "heat"; _fan := PNone; _eco_temperature := PNone;
       _is_locked := PNone; _locked_temperature := PNone;
       _min_temperature := PNone; _max_temperature := PNone |}
  = Raise TypeError.
Proof. reflexivity. Qed.

(** A successful assignment over the storing vendor, then a refresh. *)
Example set_temperature_then_update :
  let w := hall_world (PStr "heat") (PNum 20) (PBool false) in
  let w1 :=
    snd (@set_temperature "target_temp_high" "target_temp_low" "temperature"
           verbatim_vendor {[ "temperature" := PNum 25 ]} w) in
  target_temperature (self w1) = PNum 20 /\
  target_temperature (self (snd (update (PStr "C") (PStr "F") w1))) = PNum 25.
Proof. vm_compute. split; reflexivity. Qed.

(** [set_fan_mode] lowers the mode it is given, and needs a string. *)
Example set_fan_mode_runs :
  let w := hall_world (PStr "heat") (PNum 20) (PBool false) in
  vendor_calls (snd (@set_fan_mode plain_runtime verbatim_vendor (PStr "ON") w))
    = [SetFan (PStr "on")] /\
  fst (@set_fan_mode plain_runtime verbatim_vendor PNone w) = Raise AttributeError.
Proof. split; reflexivity. Qed.

(** ** Instances of the further properties *)

(** X1 at a thermostat without a fan, given [None]. *)
Lemma set_fan_mode_without_fan_witness :
  let w :=
    with_self (init 1 2 4 128 1024 64 attic_device (PStr "F"))
      (hall_world PNone PNone PNone) in
  _has_fan (self w) = false /\
  @set_fan_mode plain_runtime verbatim_vendor PNone w = (Ok tt, w).
Proof.
  intros w. split; [reflexivity|].
  apply (@set_fan_mode_without_fan plain_runtime verbatim_vendor PNone w). reflexivity.
Defined.


(** X3 at the same thermostat, given Auto. *)
Lemma set_fan_mode_lowercase_witness :
  let w := hall_world (PStr "heat") (PNum 20) (PBool false) in
  _has_fan (self w) = true /\
  exists t,
    vendor_calls (snd (@set_fan_mode plain_runtime verbatim_vendor (PStr "Auto") w)) =
      [SetFan (PStr t)] /\
    @set_fan_mode plain_runtime verbatim_vendor (PStr t) w =
    @set_fan_mode plain_runtime verbatim_vendor (PStr "Auto") w.
Proof.
  intros w. split; [reflexivity|].
  destruct (@set_fan_mode_lowercase plain_runtime verbatim_vendor "Auto" w
              eq_refl eq_refl)
    as (t & Hcall & _ & Hsame).
  exists t. split; [exact Hcall | exact Hsame].
Defined.

(** X4 at a refresh whose read of the target raises, on a cache that
    held cool and 26. *)
Lemma update_wholesale_witness :
  let faults := fun a =>
    match a with
    | A_target => Some (VendorFault "timeout")
    | _ => None
    end in
  let w := hall_world (PStr "cool") (PNum 26) (PBool true) in
  let run := update_reading (PStr "C") (PStr "F") faults w in
  fst run = Raise (VendorFault "timeout") /\
  _mode (self (snd run)) = PStr "heat" /\
  _target_temperature (self (snd run)) = PNum 26 /\
  _away (self (snd run)) = PBool true.
Proof.
  intros faults w run.
  destruct (update_wholesale (PStr "C") (PStr "F") faults w)
    as (_ & _ & Hstop & _).
  destruct (Hstop [A_where; A_name; A_humidity; A_temperature; A_mode]
              A_target
              [A_fan; A_away; A_eco_temperature; A_locked_temperature;
               A_min_temperature; A_max_temperature; A_is_locked;
               A_temperature_scale]
              (VendorFault "timeout") eq_refl)
    as (Hraise & Hfresh & Hstale).
  - intros b Hb. simpl in Hb.
    destruct Hb as [<- | [<- | [<- | [<- | [<- | []]]]]]; reflexivity.
  - reflexivity.
  - split; [exact Hraise|]. split; [|split].
    + apply (Hfresh A_mode). simpl. tauto.
    + apply (Hstale A_target). simpl. tauto.
    + apply (Hstale A_away). simpl. tauto.
Defined.

(** X5 at a Celsius and at a Fahrenheit device. *)
Lemma temperature_unit_after_update_witness :
  temperature_unit
    (self (snd (update (PStr "C") (PStr "F")
                  (hall_world PNone PNone PNone)))) = PStr "C" /\
  temperature_unit
    (self (snd (update (PStr "C") (PStr "F")
                  (with_self (init 1 2 4 128 1024 64 attic_device PNone)
                     (mkWorld (cached PNone PNone PNone) attic_device
                        (mkStructure (PStr "home")) [] [] []))))) = PStr "F".
Proof.
  split.
  - destruct (temperature_unit_after_update 1 2 4 128 1024 64
                (PStr "C") (PStr "F") (hall_world PNone PNone PNone))
      as (Hc & _).
    now apply Hc.
  - destruct (temperature_unit_after_update 1 2 4 128 1024 64
                (PStr "C") (PStr "F")
                (with_self (init 1 2 4 128 1024 64 attic_device PNone)
                   (mkWorld (cached PNone PNone PNone) attic_device
                      (mkStructure (PStr "home")) [] [] [])))
      as (_ & Hf & _).
    apply Hf. discriminate.
Defined.

(** X7 at the hallway thermostat in the combined mode. *)
Lemma range_accessors_safe_after_update_witness :
  ranges_are_pairs (device dual_world) /\
  exists lo hi,
    target_temperature_low
      (self (snd (update (PStr "C") (PStr "F") dual_world))) = Ok lo /\
    target_temperature_high
      (self (snd (update (PStr "C") (PStr "F") dual_world))) = Ok hi.
Proof.
  assert (H : ranges_are_pairs (device dual_world)).
  { split.
    - exists (PNum 16), (PNum 22). reflexivity.
    - intros _. exists (PNum 18), (PNum 24). reflexivity. }
  split; [exact H|].
  exact (range_accessors_safe_after_update (PStr "C") (PStr "F") dual_world H).
Defined.

(** X8 at a cache without eco range while away-mode is on, and at a cache
    that holds a single target although its mode is the combined one. *)
Lemma range_accessors_fault_witness :
  target_temperature_low
    (cached_without_eco (PStr "heat") (PNum 20) (PBool true))
    = Raise TypeError /\
  target_temperature_high
    (cached_without_eco (PStr "heat-cool") (PNum 20) (PBool false))
    = Raise TypeError.
Proof.
  split.
  - destruct (range_accessors_fault
                (cached_without_eco (PStr "heat") (PNum 20) (PBool true)))
      as (Hnone & _).
    apply Hnone; [left; reflexivity | reflexivity].
  - destruct (range_accessors_fault
                (cached_without_eco (PStr "heat-cool") (PNum 20) (PBool false)))
      as (_ & _ & Hsingle).
    apply (Hsingle 20%Z); try reflexivity.
    intros [H | H]; discriminate.
Defined.

(** X9 at a cache in heat mode holding 20. *)
Lemma single_target_excludes_range_witness :
  let s := cached (PStr "heat") (PNum 20) (PBool false) in
  target_temperature s <> PNone /\
  target_temperature_low s = Ok PNone /\
  target_temperature_high s = Ok PNone.
Proof.
  intros s.
  assert (H : target_temperature s <> PNone) by discriminate.
  split; [exact H|]. exact (single_target_excludes_range s H).
Defined.

(** X10 at a thermostat in heat mode asked for 25, the vendor storing it. *)
Lemma set_temperature_accepted_witness :
  let w := hall_world (PStr "heat") (PNum 20) (PBool false) in
  let run :=
    @set_temperature "target_temp_high" "target_temp_low" "temperature"
      verbatim_vendor {[ "temperature" := PNum 25 ]} w in
  fst run = Ok tt /\
  Dev.target (device (snd run)) = PNum 25 /\
  scheduled (snd run) = [] /\
  target_temperature (self (snd run)) = PNum 20.
Proof.
  intros w run.
  destruct (@set_temperature_accepted
              "target_temp_high" "target_temp_low" "temperature"
              verbatim_vendor {[ "temperature" := PNum 25 ]} w
              (PNum 25) (store_target hall_device (PNum 25)))
    as (Hrun & Hshown).
  - exists []. vm_compute. reflexivity.
  - reflexivity.
  - subst run. rewrite Hshown, Hrun. repeat split.
Defined.

(** X11 at the same call over a vendor whose connection drops. *)
Lemma set_temperature_other_fault_witness :
  let w := hall_world (PStr "heat") (PNum 20) (PBool false) in
  let run :=
    @set_temperature "target_temp_high" "target_temp_low" "temperature"
      dropping_vendor {[ "temperature" := PNum 25 ]} w in
  fst run = Raise (VendorFault "connection") /\
  scheduled (snd run) = [] /\
  length (log (snd run)) = 1%nat.
Proof.
  intros w run. subst run.
  rewrite (@set_temperature_other_fault
             "target_temp_high" "target_temp_low" "temperature"
             dropping_vendor {[ "temperature" := PNum 25 ]} w
             (PNum 25) (VendorFault "connection") hall_device).
  - repeat split.
  - exists []. vm_compute. reflexivity.
  - reflexivity.
  - discriminate.
Defined.

(** X12 at the same call over the vendor that refuses the target. *)
Lemma set_temperature_contains_api_fault_witness :
  fst (@set_temperature "target_temp_high" "target_temp_low" "temperature"
         refusing_vendor {[ "temperature" := PNum 25 ]}
         (hall_world (PStr "heat") (PNum 20) (PBool false)))
  <> Raise (APIError "blocked").
Proof.
  apply (@set_temperature_contains_api_fault
           "target_temp_high" "target_temp_low" "temperature"
           refusing_vendor).
Defined.

(** X13 at two calls in heat mode that differ in the bounds they carry. *)
Lemma set_temperature_reads_mode_arguments_witness :
  let w := hall_world (PStr "heat") (PNum 20) (PBool false) in
  @set_temperature "target_temp_high" "target_temp_low" "temperature"
    verbatim_vendor
    (<[ "target_temp_low" := PNum 18 ]> {[ "temperature" := PNum 25 ]}) w =
  @set_temperature "target_temp_high" "target_temp_low" "temperature"
    verbatim_vendor {[ "temperature" := PNum 25 ]} w.
Proof.
  intros w.
  destruct (@set_temperature_reads_mode_arguments
              "target_temp_high" "target_temp_low" "temperature"
              verbatim_vendor
              (<[ "target_temp_low" := PNum 18 ]>
                 {[ "temperature" := PNum 25 ]})
              {[ "temperature" := PNum 25 ]} w)
    as (_ & Hsingle).
  apply Hsingle; [discriminate | vm_compute; reflexivity].
Defined.

(** X14 at a thermostat in heat mode asked for 25. *)
Lemma set_temperature_single_round_trip_witness :
  let w := hall_world (PStr "heat") (PNum 20) (PBool false) in
  target_temperature
    (self (snd (update (PStr "C") (PStr "F")
                  (snd (@set_temperature
                          "target_temp_high" "target_temp_low" "temperature"
                          verbatim_vendor {[ "temperature" := PNum 25 ]} w)))))
  = PNum 25.
Proof.
  intros w.
  refine (proj1 (@set_temperature_single_round_trip (PStr "C") (PStr "F")
                   "target_temp_high" "target_temp_low" "temperature"
                   verbatim_vendor {[ "temperature" := PNum 25 ]} w (PNum 25)
                   _ _ _ _ _ _ _));
    try discriminate; reflexivity.
Defined.

(** X15 at the hallway thermostat in the combined mode asked for 19 to 23. *)
Lemma set_temperature_range_round_trip_witness :
  let kwargs : gmap string pyval :=
    <[ "target_temp_low" := PNum 19 ]> {[ "target_temp_high" := PNum 23 ]} in
  let w' :=
    snd (update (PStr "C") (PStr "F")
           (snd (@set_temperature
                   "target_temp_high" "target_temp_low" "temperature"
                   verbatim_vendor kwargs dual_world))) in
  target_temperature (self w') = PNone /\
  target_temperature_low (self w') = Ok (PNum 19) /\
  target_temperature_high (self w') = Ok (PNum 23).
Proof.
  intros kwargs w'.
  apply (@set_temperature_range_round_trip (PStr "C") (PStr "F")
           "target_temp_high" "target_temp_low" "temperature"
           verbatim_vendor kwargs dual_world (PNum 19) (PNum 23));
    try discriminate; try reflexivity; vm_compute; reflexivity.
Defined.

(** X17 at a cache holding the combined token. *)
Lemma current_operation_vocabulary_witness :
  current_operation (cached (PStr "heat-cool") (PNum 20) (PBool false))
  <> PStr "heat-cool".
Proof.
  exact (proj2 (current_operation_vocabulary
                  (cached (PStr "heat-cool") (PNum 20) (PBool false)))).
Defined.

(** X18 at auto and at a foreign word. *)
Lemma set_operation_mode_round_trip_witness :
  let w := hall_world (PStr "heat") (PNum 20) (PBool false) in
  current_operation
    (self (snd (update (PStr "C") (PStr "F")
                  (snd (@set_operation_mode verbatim_vendor (PStr "auto") w)))))
    = PStr "auto" /\
  current_operation
    (self (snd (update (PStr "C") (PStr "F")
                  (snd (@set_operation_mode verbatim_vendor (PStr "warm") w)))))
    = PStr "off".
Proof.
  intros w.
  assert (Hstore : forall d v,
            @device_set_mode verbatim_vendor d v = (None, store_mode d v))
    by reflexivity.
  split.
  - destruct (@set_operation_mode_round_trip (PStr "C") (PStr "F")
                verbatim_vendor "auto" w Hstore) as (Hknown & _).
    apply Hknown. simpl. tauto.
  - destruct (@set_operation_mode_round_trip (PStr "C") (PStr "F")
                verbatim_vendor "warm" w Hstore) as (_ & Hforeign).
    apply Hforeign. simpl. intuition discriminate.
Defined.

(** X19 at the hallway thermostat and its advertised mode auto. *)
Lemma advertised_modes_accepted_witness :
  let w := hall_world (PStr "heat") (PNum 20) (PBool false) in
  In "auto" (operation_list (init 1 2 4 128 1024 64 hall_device (PStr "C"))) /\
  log (snd (@set_operation_mode verbatim_vendor (PStr "auto") w)) = [].
Proof.
  intros w.
  assert (Hin : In "auto"
                  (operation_list
                     (init 1 2 4 128 1024 64 hall_device (PStr "C"))))
    by (simpl; tauto).
  split; [exact Hin|].
  destruct (@advertised_modes_accepted 1 2 4 128 1024 64 verbatim_vendor
              hall_device (PStr "C") w) as (_ & Hlog).
  exact (Hlog "auto" Hin).
Defined.

(** X20 at the hallway thermostat after a refresh and a fan command. *)
Lemma fan_mode_is_advertised_witness :
  let s :=
    self (@perform_all (PStr "C") (PStr "F")
            "target_temp_high" "target_temp_low" "temperature"
            plain_runtime verbatim_vendor
            [Update; SetFanMode (PStr "on"); Update]
            (with_self (init 1 2 4 128 1024 64 hall_device (PStr "C"))
               (hall_world PNone PNone PNone))) in
  fan_list s = Some ["on"; "auto"] /\
  exists m, In m ["on"; "auto"] /\ current_fan_mode s = PStr m.
Proof.
  intros s.
  destruct (@fan_mode_is_advertised 1 2 4 128 1024 64 (PStr "C") (PStr "F")
              "target_temp_high" "target_temp_low" "temperature"
              plain_runtime verbatim_vendor hall_device (PStr "C")
              [Update; SetFanMode (PStr "on"); Update]
              (hall_world PNone PNone PNone)) as (_ & Hmode).
  split; [reflexivity|]. apply Hmode. reflexivity.
Defined.

(** X21 over the vendor that translates the away flag. *)
Lemma away_mode_round_trip_witness :
  let w := hall_world (PStr "heat") (PNum 20) (PBool false) in
  let on :=
    snd (update (PStr "C") (PStr "F")
           (snd (@turn_away_mode_on translating_vendor w))) in
  let off :=
    snd (update (PStr "C") (PStr "F")
           (snd (@turn_away_mode_off translating_vendor on))) in
  is_away_mode_on (self on) = PBool true /\
  target_temperature (self on) = PNone /\
  is_away_mode_on (self off) = PBool false.
Proof.
  intros w on off.
  destruct (@away_mode_round_trip (PStr "C") (PStr "F") translating_vendor w)
    as (_ & Hon & Hhidden & _ & Hoff).
  - intros st. split; reflexivity.
  - intros st. split; [reflexivity | discriminate].
  - repeat split; assumption.
Defined.

(** X24 at a mode command. *)
Lemma command_frames_witness :
  let w := hall_world (PStr "heat") (PNum 20) (PBool false) in
  let w' :=
    snd (@perform (PStr "C") (PStr "F")
           "target_temp_high" "target_temp_low" "temperature"
           plain_runtime verbatim_vendor (SetOperationMode (PStr "cool")) w) in
  structure w' = structure w /\ self w' = self w.
Proof.
  intros w w'.
  destruct (@command_frames (PStr "C") (PStr "F")
              "target_temp_high" "target_temp_low" "temperature"
              plain_runtime verbatim_vendor (SetOperationMode (PStr "cool")) w)
    as (Hstructure & _ & Hself).
  split; [apply Hstructure | apply Hself]; discriminate.
Defined.

(** X25 at a thermostat that only heats. *)
Lemma base_features_always_supported_witness :
  let s := init 1 2 4 128 1024 64 attic_device (PStr "F") in
  has_feature (supported_features s) 1 = true /\
  has_feature (supported_features s) 128 = true /\
  has_feature (supported_features s) 1024 = true.
Proof.
  intros s.
  exact (base_features_always_supported 1 2 4 128 1024 64 attic_device
           (PStr "F") climate_masks_independent).
Defined.
